(** * mvn_get: a shallow embedding of [packaging/language/mvn_get.py]

    The module downloads one artifact from a Maven repository.  This file
    embeds its coordinate model ([Artifact]), the metadata resolution, the
    URI construction and the download engine ([MavenDownloader]) and proves
    the properties the specification states about them.

    Python values are modelled as follows (Python 2.7 semantics): [str] is
    [string]; a value that may be [None] is an [option string]; an
    exception is a value of [Exception], and a computation that may raise
    returns a [result].  The local file system and the requests sent to
    the repository are threaded through the downloader as a [World]. *)

From stdpp Require Import gmap strings list fin_maps.
From Stdlib Require Import Ascii.

(** ** Python strings *)

(** Truth value of an optional string: [None] and [''] are false. *)
Definition truthy (o : option string) : bool :=
  match o with
  | Some (String _ _) => true
  | _ => false
  end.

(** [x or y] on optional strings. *)
Definition py_or (x y : option string) : option string :=
  if truthy x then x else y.

(** [s.split(sep)] for a one-character separator: never returns an empty
    list. *)
Fixpoint split (sep : ascii) (s : string) : list string :=
  match s with
  | EmptyString => [EmptyString]
  | String c r =>
      if Ascii.eqb c sep then EmptyString :: split sep r
      else match split sep r with
           | [] => [String c EmptyString]
           | h :: t => String c h :: t
           end
  end.

(** [sep.join(l)] on a list of strings. *)
Fixpoint join (sep : string) (l : list string) : string :=
  match l with
  | [] => EmptyString
  | [x] => x
  | x :: r => x +:+ sep +:+ join sep r
  end.

(** [s.replace(old, new)] for one-character [old] and [new]. *)
Fixpoint replace (old new : ascii) (s : string) : string :=
  match s with
  | EmptyString => EmptyString
  | String c r => String (if Ascii.eqb c old then new else c) (replace old new r)
  end.

(** [s.endswith(suffix)]. *)
Fixpoint endswith (s suffix : string) : bool :=
  if String.eqb s suffix then true
  else match s with
       | EmptyString => false
       | String _ r => endswith r suffix
       end.

(** [s] contains the character [c]. *)
Fixpoint contains (c : ascii) (s : string) : bool :=
  match s with
  | EmptyString => false
  | String d r => Ascii.eqb d c || contains c r
  end.

(** ** The coordinate model and the exceptions *)

(** The attributes of an [Artifact] object.  [group_id] and [artifact_id]
    are strings once the constructor has accepted them. *)
Record Artifact : Type := mkArtifact {
  group_id : string;
  artifact_id : string;
  version : option string;
  classifier : option string;
  extension : option string
}.

(** Exceptions of the interpreter and of the libraries the module calls. *)
Inductive PyError : Type :=
| TypeError | AttributeError | IndexError | KeyError | ValueError
| IOError | ParseError | SocketError.

(** What [urlopen] raises on a transport failure. *)
Inductive Cause : Type :=
| HTTPError (code : nat)
| URLError (reason : string).

(** The module's exception classes ([Error] and its two subclasses), and
    everything else that can propagate out of its functions. *)
Inductive Exception : Type :=
| Error (arg : string)
| ArtifactError (artifact : option Artifact) (message : string)
| DownloaderError (url message : string) (cause : Cause)
| Builtin (e : PyError).

Inductive result (A : Type) : Type :=
| Ok (a : A)
| Raise (e : Exception).
Arguments Ok {A} a.
Arguments Raise {A} e.

Definition is_ArtifactError {A} (r : result A) : bool :=
  match r with
  | Raise (ArtifactError _ _) => true
  | _ => false
  end.

#[global] Instance Artifact_eq_dec : EqDecision Artifact.
Proof. solve_decision. Defined.

#[global] Instance result_ret : MRet result := @Ok.
#[global] Instance result_fmap : FMap result := fun A B f r =>
  match r with
  | Ok a => Ok (f a)
  | Raise e => Raise e
  end.
#[global] Instance result_bind : MBind result := fun A B f r =>
  match r with
  | Ok a => f a
  | Raise e => Raise e
  end.

(** *** [str.format]

    [ArtifactError.__init__] stores [message.format({'artifact': artifact})].
    The scan below follows the format-string grammar: text outside braces
    is copied, a doubled brace stands for one brace, a single closing brace
    or an unterminated field raises [ValueError], and the text of a
    replacement field (braces nest inside it) is handed to [render_field],
    which stands for the lookup and conversion of the field in the argument
    tuple.  The only message of the module that is not a constant is the
    one of [parse], whose variable part holds no colon, so format
    specifications inside a field are not modelled. *)
Inductive FormatState : Type :=
| Literal
| SeenOpen
| SeenClose
| InField (depth : nat) (field : string).

Definition snoc_char (s : string) (c : ascii) : string := s +:+ String c EmptyString.

Section Format.
Variable render_field : string -> option Artifact -> result string.
Variable artifact : option Artifact.

Fixpoint format_scan (st : FormatState) (s : string) : result string :=
  match s with
  | EmptyString =>
      match st with
      | Literal => Ok EmptyString
      | _ => Raise (Builtin ValueError)
      end
  | String c r =>
      match st with
      | Literal =>
          if Ascii.eqb c "{" then format_scan SeenOpen r
          else if Ascii.eqb c "}" then format_scan SeenClose r
          else String c <$> format_scan Literal r
      | SeenOpen =>
          if Ascii.eqb c "{" then String c <$> format_scan Literal r
          else if Ascii.eqb c "}" then
            x ← render_field EmptyString artifact;
            String.append x <$> format_scan Literal r
          else format_scan (InField 0 (String c EmptyString)) r
      | SeenClose =>
          if Ascii.eqb c "}" then String c <$> format_scan Literal r
          else Raise (Builtin ValueError)
      | InField depth field =>
          if Ascii.eqb c "}" then
            match depth with
            | O =>
                x ← render_field field artifact;
                String.append x <$> format_scan Literal r
            | S d => format_scan (InField d (snoc_char field c)) r
            end
          else if Ascii.eqb c "{" then format_scan (InField (S depth) (snoc_char field c)) r
          else format_scan (InField depth (snoc_char field c)) r
      end
  end.

Definition str_format (message : string) : result string :=
  format_scan Literal message.
End Format.

(** ** [class Artifact] *)

Section Coordinates.
Variable render_field : string -> option Artifact -> result string.

(** [raise ArtifactError(artifact, message)]: the constructor formats the
    message first, so constructing the exception can itself raise. *)
Definition raise_ArtifactError {A} (artifact : option Artifact) (message : string)
  : result A :=
  match str_format render_field artifact message with
  | Ok m => Raise (ArtifactError artifact m)
  | Raise e => Raise e
  end.

(** [Artifact.__init__]. *)
Definition Artifact_init (group_id artifact_id version classifier extension : option string)
  : result Artifact :=
  if negb (truthy group_id) || negb (truthy artifact_id) then
    raise_ArtifactError None "artifact_id and group_id must be provided"
  else
    Ok (mkArtifact (default EmptyString group_id) (default EmptyString artifact_id)
                   version classifier extension).

(** [Artifact.parse]. *)
Definition parse (input : string) : result Artifact :=
  let parts := split ":" input in
  if length parts <? 2 then
    raise_ArtifactError None ("invalid Maven coordinates: " +:+ input)
  else
    let g := parts !! 0 in
    let a := parts !! 1 in
    let v := if 3 <=? length parts then last parts else None in
    let t := if 4 <=? length parts then parts !! 2 else None in
    let c := if 5 <=? length parts then parts !! 3 else None in
    Artifact_init g a v c t.
End Coordinates.

(** [Artifact.is_snapshot]: calling [endswith] on [None] raises. *)
Definition is_snapshot (self : Artifact) : result bool :=
  match version self with
  | Some v => Ok (endswith v "SNAPSHOT")
  | None => Raise (Builtin AttributeError)
  end.

(** [Artifact.path]: concatenating [None] to a string raises. *)
Definition path (self : Artifact) (with_version : bool) : result string :=
  let base := replace "." "/" (group_id self) +:+ "/" +:+ artifact_id self in
  if with_version then
    match version self with
    | Some v => Ok (base +:+ "/" +:+ v)
    | None => Raise (Builtin TypeError)
    end
  else Ok (base +:+ "").

(** [Artifact.filename]. *)
Definition filename (self : Artifact) : result string :=
  let s := artifact_id self in
  let s := if truthy (classifier self)
           then s +:+ "-" +:+ default EmptyString (classifier self) else s in
  match extension self with
  | Some e => Ok (s +:+ "." +:+ e)
  | None => Raise (Builtin TypeError)
  end.

(** [sep.join(a)] on a list that may hold [None]: a [None] item raises. *)
Definition join_items (sep : string) (a : list (option string)) : result string :=
  match mapM id a with
  | Some l => Ok (join sep l)
  | None => Raise (Builtin TypeError)
  end.

(** [Artifact.__str__]. *)
Definition Artifact_str (self : Artifact) : result string :=
  let a := [Some (group_id self); Some (artifact_id self)] in
  let a := if negb (bool_decide (extension self = Some "jar")) || truthy (classifier self)
           then a ++ [extension self] else a in
  let a := if truthy (classifier self) then a ++ [classifier self] else a in
  let a := if truthy (version self) then a ++ [version self] else a in
  join_items ":" a.

(** ** Repository metadata: [xml.etree.ElementTree] elements *)

#[local] Unset Elimination Schemes.
Inductive Element : Type :=
| Elem (tag : string) (text : option string) (children : list Element).
#[local] Set Elimination Schemes.

Definition tag (e : Element) : string := let 'Elem t _ _ := e in t.
Definition text (e : Element) : option string := let 'Elem _ x _ := e in x.
Definition children (e : Element) : list Element := let 'Elem _ _ c := e in c.

(** The children of [e] with the given tag, in document order. *)
Definition child_elems (t : string) (e : Element) : list Element :=
  filter (fun c => tag c = t) (children e).

(** [xml.findall('./t1/t2/...')]: the path is given as its list of tags; the
    result is in document order. *)
Definition findall (tags : list string) (root : Element) : list Element :=
  foldl (fun ctx t => ctx ≫= child_elems t) [root] tags.

(** [e.findtext(t)]: the text of the first child with tag [t] (an absent
    text reads as ['']), [None] when there is no such child. *)
Definition findtext (t : string) (e : Element) : option string :=
  match child_elems t e with
  | c :: _ => Some (default EmptyString (text c))
  | [] => None
  end.

(** An [ElementTree] object defines neither [__len__] nor [__nonzero__]. *)
Definition ElementTree_truthy (xml : Element) : bool := true.

(** ** [os.path] on a file system *)

Inductive Node : Type :=
| Dir
| File (content : string).

#[global] Instance Node_eq_dec : EqDecision Node.
Proof. solve_decision. Defined.

(** Files and directories by path name. *)
Abbreviation FileSystem := (gmap string Node).

Definition path_isdir (fs : FileSystem) (p : string) : bool :=
  bool_decide (fs !! p = Some Dir).

Definition path_exists (fs : FileSystem) (p : string) : bool :=
  bool_decide (is_Some (fs !! p)).

(** [p[:p.rfind('/') + 1]]. *)
Fixpoint upto_last_slash (p : string) : string :=
  match p with
  | EmptyString => EmptyString
  | String c r => if contains "/" p then String c (upto_last_slash r) else EmptyString
  end.

(** [s.rstrip(ch)]. *)
Fixpoint rstrip (ch : ascii) (s : string) : string :=
  match s with
  | EmptyString => EmptyString
  | String c r =>
      match rstrip ch r with
      | EmptyString => if Ascii.eqb c ch then EmptyString else String c EmptyString
      | r' => String c r'
      end
  end.

(** [s == ch * len(s)]. *)
Fixpoint all_char (ch : ascii) (s : string) : bool :=
  match s with
  | EmptyString => true
  | String c r => Ascii.eqb c ch && all_char ch r
  end.

(** [posixpath.dirname]. *)
Definition path_dirname (p : string) : string :=
  let head := upto_last_slash p in
  if truthy (Some head) && negb (all_char "/" head) then rstrip "/" head else head.

(** [posixpath.join] of two components. *)
Definition path_join (a b : string) : string :=
  if String.prefix "/" b then b
  else if bool_decide (a = EmptyString) || endswith a "/" then a +:+ b
  else a +:+ "/" +:+ b.

(** ** The remote repository and the state of an invocation *)

Record Request : Type := mkRequest {
  req_url : string;
  req_headers : list (string * string)
}.

(** What [urlopen] returns: a response whose body can be read once;
    [body = None] stands for a transfer that breaks while it is read. *)
Record Response : Type := mkResponse {
  body : option string
}.

(** [r.read()]. *)
Definition read (r : Response) : result string :=
  match body r with
  | Some data => Ok data
  | None => Raise (Builtin SocketError)
  end.

(** A response object defines neither [__len__] nor [__nonzero__]. *)
Definition Response_truthy (r : Response) : bool := true.

(** The state an invocation acts on: the local file system and the
    requests sent so far (latest last). *)
Record World : Type := mkWorld {
  files : gmap string Node;
  requests : list Request
}.

(** Computations that read and change the [World] and may raise; the
    state reached when an exception is raised is kept. *)
Definition M (A : Type) : Type := World -> result A * World.

#[global] Instance M_ret : MRet M := fun A a w => (Ok a, w).
#[global] Instance M_bind : MBind M := fun A B f m w =>
  match m w with
  | (Ok a, w') => f a w'
  | (Raise e, w') => (Raise e, w')
  end.

Definition lift {A} (r : result A) : M A := fun w => (r, w).
Definition raise {A} (e : Exception) : M A := lift (Raise e).
Definition get_files : M (gmap string Node) := fun w => (Ok (files w), w).
Definition put_file (p : string) (n : Node) : M unit :=
  fun w => (Ok tt, mkWorld (<[p := n]> (files w)) (requests w)).
Definition send (r : Request) : M unit :=
  fun w => (Ok tt, mkWorld (files w) (requests w ++ [r])).

(** A computation that leaves the file system as it is, whatever its
    outcome. *)
Definition keeps_files {A} (m : M A) : Prop :=
  forall w r w', m w = (r, w') -> files w' = files w.

(** A computation whose outcome does not depend on the world it starts
    from. *)
Definition ignores_world {A} (m : M A) : Prop :=
  forall w w', (m w).1 = (m w').1.

(** A computation that only appends to the requests sent, and only requests
    that satisfy [P]. *)
Definition sends_only (P : Request -> Prop) {A} (m : M A) : Prop :=
  forall w r w', m w = (r, w') ->
    exists new, requests w' = requests w ++ new /\ Forall P new.

(** [open(p, 'w')]: creates or truncates the file. *)
Definition open_w (p : string) : M unit :=
  fs ← get_files;
  if path_isdir fs p then raise (Builtin IOError)
  else if negb (path_isdir fs (path_dirname p)) then raise (Builtin IOError)
  else put_file p (File EmptyString).

(** [f.write(data)] followed by [f.close()] on a file just opened by
    [open_w], when both complete.  A write or a close that fails (a full
    disk) raises [IOError] in the source, after the file was truncated; the
    model has no such outcome. *)
Definition write (p : string) (data : string) : M unit :=
  put_file p (File data).

(** ** [class MavenDownloader] *)

Record MavenDownloader : Type := mkMavenDownloader {
  base : string;
  username : option string;
  password : option string;
  user_agent : string
}.

(** [base[0:-1]]. *)
Fixpoint drop_last (s : string) : string :=
  match s with
  | EmptyString => EmptyString
  | String c EmptyString => EmptyString
  | String c r => String c (drop_last r)
  end.

(** [MavenDownloader.__init__]. *)
Definition MavenDownloader_init (base : string) (username password : option string)
  : MavenDownloader :=
  let base := if endswith base "/" then drop_last base else base in
  mkMavenDownloader base username password "Ansible".

(** The resolved metadata [download] returns: [changed], [url], [path],
    [name] and the attributes of the artifact. *)
Record Info : Type := mkInfo {
  changed : bool;
  url : string;
  dest_path : string;
  name : string;
  info_artifact : Artifact
}.

(** ['%s' % x] for a string or [None]. *)
Definition percent_s (x : option string) : string := default "None" x.

Section Downloader.
(** The rendering of replacement fields by [str.format]. *)
Variable render_field : string -> option Artifact -> result string.
(** [base64.b64encode]. *)
Variable b64encode : string -> string.
(** [hashlib.md5(data).hexdigest()]. *)
Variable md5_hexdigest : string -> string.
(** The root element [ET.parse] builds from a document, [None] when the
    document is not well-formed. *)
Variable ET_parse : string -> option Element.
(** The remote side: what [urlopen] gives for a request, either one of the
    two exceptions [_request] catches or a response. *)
Variable urlopen : Request -> Cause + Response.

Variable self : MavenDownloader.

(** Lines 251-256 of [_request]: the request with its headers. *)
Definition request_for (url : string) : Request :=
  let headers := [("User-Agent", user_agent self)] in
  let headers :=
    if truthy (username self) && truthy (password self) then
      let credentials :=
        b64encode (default EmptyString (username self) +:+ ":"
                   +:+ default EmptyString (password self)) in
      headers ++ [("Authorization", "Basic " +:+ credentials)]
    else headers in
  mkRequest url headers.

(** [MavenDownloader._request]. *)
Definition _request {A} (url failmsg : string) (f : Response -> result A) : M A :=
  let req := request_for url in
  send req;;
  match urlopen req with
  | inl e => raise (DownloaderError url failmsg e)
  | inr response => lift (f response)
  end.

(** [lambda r: ET.parse(r)]. *)
Definition parse_response (r : Response) : result Element :=
  data ← read r;
  match ET_parse data with
  | Some root => Ok root
  | None => Raise (Builtin ParseError)
  end.

(** [MavenDownloader._uri_for_artifact]. *)
Definition _uri_for_artifact (artifact : Artifact) (version_ : option string)
  : result string :=
  snapshot ← is_snapshot artifact;
  version_ ← (if snapshot && negb (truthy version_) then
                raise_ArtifactError render_field (Some artifact)
                  "Expected unique version for snapshot artifact"
              else if negb snapshot then Ok (version artifact)
              else Ok version_);
  p ← path artifact true;
  let uri := base self +:+ "/" +:+ p +:+ "/" +:+ artifact_id artifact
             +:+ "-" +:+ percent_s version_ in
  let uri := if truthy (classifier artifact)
             then uri +:+ "-" +:+ default EmptyString (classifier artifact)
             else uri in
  match extension artifact with
  | Some e => Ok (uri +:+ "." +:+ e)
  | None => Raise (Builtin TypeError)
  end.

(** [MavenDownloader._find_matching_artifact]. *)
Definition _find_matching_artifact (elems : list Element) (artifact : Artifact)
  : result string :=
  let filtered :=
    filter (fun e => findtext "extension" e = extension artifact) elems in
  let filtered :=
    if truthy (classifier artifact) then
      filter (fun e => findtext "classifier" e = classifier artifact) filtered
    else filtered in
  match filtered with
  | [] =>
      raise_ArtifactError render_field (Some artifact) "Artifact %(artifact)s not found"
  | elem :: _ =>
      let version_ := findtext "value" elem in
      _uri_for_artifact artifact version_
  end.

(** [MavenDownloader.find_uri_for_artifact]. *)
Definition find_uri_for_artifact (artifact : Artifact) : M string :=
  snapshot ← lift (is_snapshot artifact);
  if (snapshot : bool) then
    p ← lift (path artifact true);
    let path := "/" +:+ p +:+ "/maven-metadata.xml" in
    xml ← _request (base self +:+ path) "Failed to download maven-metadata.xml"
          parse_response;
    if negb (ElementTree_truthy xml) then
      lift (raise_ArtifactError render_field (Some artifact)
              "Metadata for artifact %(artifact)s not found")
    else
      let elems := findall ["versioning"; "snapshotVersions"; "snapshotVersion"] xml in
      lift (_find_matching_artifact elems artifact)
  else lift (_uri_for_artifact artifact None).

(** [MavenDownloader._find_latest_version_available]: the result is the
    [text] attribute of an element, which is [None] for an empty one. *)
Definition _find_latest_version_available (artifact : Artifact) : M (option string) :=
  p ← lift (path artifact false);
  let path := "/" +:+ p +:+ "/maven-metadata.xml" in
  xml ← _request (base self +:+ path) "Failed to download maven-metadata.xml"
        parse_response;
  if negb (ElementTree_truthy xml) then
    lift (raise_ArtifactError render_field (Some artifact)
            "Metadata for artifact %(artifact)s not found")
  else
    match last (findall ["versioning"; "versions"; "version"] xml) with
    | Some e => mret (text e)
    | None => raise (Builtin IndexError)
    end.

(** [MavenDownloader._local_md5]: the digest of the whole file, fed to
    the hash in chunks. *)
Definition _local_md5 (file : string) : M string :=
  fs ← get_files;
  match fs !! file with
  | Some (File content) => mret (md5_hexdigest content)
  | _ => raise (Builtin IOError)
  end.

(** [MavenDownloader._is_same_md5]. *)
Definition _is_same_md5 (file remote_md5 : string) : M bool :=
  fs ← get_files;
  if negb (path_exists fs file) then mret false
  else
    local_md5 ← _local_md5 file;
    remote ← _request remote_md5 "Failed to download MD5" read;
    mret (bool_decide (local_md5 = remote)).

(** Lines 184-193 of [download], up to the checksum comparison: the
    destination file, the artifact with its version resolved, the URL and
    the name. *)
Definition download_resolve (artifact : Artifact) (dest : string)
  : M (string * Artifact * string * string) :=
  fs ← get_files;
  dest ← (if path_isdir fs dest then
            f ← lift (filename artifact); mret (path_join dest f)
          else if negb (path_isdir fs (path_dirname dest)) then
            raise (Error ("Destination directory " +:+ dest +:+ " does not exist"))
          else mret dest);
  artifact ← (if negb (truthy (version artifact)) then
                v ← _find_latest_version_available artifact;
                mret (mkArtifact (group_id artifact) (artifact_id artifact) v
                                 (classifier artifact) (extension artifact))
              else mret artifact);
  url ← find_uri_for_artifact artifact;
  name ← lift (Artifact_str artifact);
  mret (dest, artifact, url, name).

(** [MavenDownloader.download]: after the resolution above, lines 195-207
    compare the checksums and transfer the artifact. *)
Definition download (artifact : Artifact) (dest : string) (check_mode : bool) : M Info :=
  resolved ← download_resolve artifact dest;
  let '(dest, artifact, url, name) := resolved in
  let info changed := mkInfo changed url dest name artifact in
  same ← _is_same_md5 dest (url +:+ ".md5");
  if negb same then
    response ← _request url ("Failed to download artifact " +:+ name) Ok;
    if Response_truthy response then
      open_w dest;;
      (if check_mode then
         _ ← lift (read response); mret tt
       else
         data ← lift (read response); write dest data);;
      mret (info true)
    else mret (info false)
  else mret (info false).
End Downloader.

(** The requests a downloader builds. *)
Definition own_request (b64encode : string -> string) (self : MavenDownloader)
    (q : Request) : Prop :=
  q = request_for b64encode self (req_url q).

(** ** The coordinate [main] builds from the module parameters *)

Record Params : Type := mkParams {
  p_name : option string;
  p_group_id : option string;
  p_artifact_id : option string;
  p_version : option string;
  p_classifier : option string;
  p_extension : option string
}.

(** The [argument_spec] defaults with only [name] given. *)
Definition params_of_name (name : string) : Params :=
  mkParams (Some name) None None None None (Some "jar").

(** The [try] block of [main] up to the construction of the artifact. *)
Definition main_artifact (render_field : string -> option Artifact -> result string)
    (p : Params) : result Artifact :=
  if truthy (p_name p) then
    artifact ← parse render_field (default EmptyString (p_name p));
    Ok (mkArtifact (group_id artifact) (artifact_id artifact)
          (py_or (version artifact) (p_version p))
          (py_or (classifier artifact) (p_classifier p))
          (py_or (extension artifact) (p_extension p)))
  else
    Artifact_init render_field (p_group_id p) (p_artifact_id p) (p_version p)
      (p_classifier p) (p_extension p).

(** A stand-in for the rendering of replacement fields in the concrete
    runs below, none of which formats a message with a replacement field.
    It is not the rendering of [str.format], which renders a positional
    field such as [{}] or [{0}]; the theorems about [parse] hold for every
    rendering. *)
Definition render_keyword : string -> option Artifact -> result string :=
  fun _ _ => Raise (Builtin KeyError).

(** The download URL as the specification writes it:
    [{base}/{group-as-path}/{artifact}/{version}/{artifact}-{token}[-{classifier}].{extension}]. *)
Definition spec_url (base group artifact version token : string)
    (classifier : option string) (extension : string) : string :=
  base +:+ "/" +:+ replace "." "/" group +:+ "/" +:+ artifact +:+ "/" +:+ version
  +:+ "/" +:+ artifact +:+ "-" +:+ token
  +:+ (if truthy classifier then "-" +:+ default EmptyString classifier else EmptyString)
  +:+ "." +:+ extension.


(** ** Concrete repositories and file systems for the examples *)

(** A [snapshotVersion] element with the given children. *)
Definition snapshotVersion (fields : list (string * string)) : Element :=
  Elem "snapshotVersion" None (map (fun f => Elem f.1 (Some f.2) []) fields).

(** A stand-in for the digest and for the encoder. *)
Definition example_md5 (data : string) : string := "md5:" +:+ data.
Definition example_b64 (data : string) : string := "b64:" +:+ data.

Definition example_downloader : MavenDownloader :=
  MavenDownloader_init "http://repo/" None None.

Definition example_artifact : Artifact :=
  mkArtifact "org.apache.maven" "maven" (Some "3.2.1") None (Some "jar").

Definition example_url : string :=
  "http://repo/org/apache/maven/maven/3.2.1/maven-3.2.1.jar".

(** [/tmp] holds an older [maven.jar]. *)
Definition example_files : gmap string Node :=
  <["/tmp" := Dir]> (<["/tmp/maven.jar" := File "old"]> ∅).

(** A repository that serves the artifact, whose content is ["new"] unless
    the transfer breaks ([artifact_body = None]), and its checksum. *)
Definition example_repo (artifact_body : option string) (req : Request)
  : Cause + Response :=
  if String.eqb (req_url req) example_url then inr (mkResponse artifact_body)
  else if String.eqb (req_url req) (example_url +:+ ".md5")
       then inr (mkResponse (Some (example_md5 "new")))
  else inl (HTTPError 404).

(** A repository that serves one metadata document for the artifact [g:a]. *)
Definition metadata_repo (req : Request) : Cause + Response :=
  if String.eqb (req_url req) "http://repo/g/a/maven-metadata.xml"
  then inr (mkResponse (Some "<metadata>"))
  else inl (HTTPError 404).

(** A metadata document with the given versions. *)
Definition versions_doc (versions : list string) : Element :=
  Elem "metadata" None
    [Elem "versioning" None
       [Elem "versions" None (map (fun v => Elem "version" (Some v) []) versions)]].

(** * Properties *)

(** ** Strings *)

Lemma split_not_nil sep s : split sep s ≠ [].
Proof.
  destruct s as [|c r]; simpl; [done|].
  destruct (Ascii.eqb c sep); [done|]. by destruct (split sep r).
Qed.

Lemma split_no_sep sep s : Forall (fun x => contains sep x = false) (split sep s).
Proof.
  induction s as [|c r IH]; simpl.
  - by repeat constructor.
  - destruct (Ascii.eqb c sep) eqn:Hc.
    + by constructor.
    + destruct (split sep r) as [|h t].
      * repeat constructor. simpl. by rewrite Hc.
      * inversion IH; subst. constructor; [|done]. simpl. by rewrite Hc.
Qed.

Lemma split_no_sep_id sep x : contains sep x = false -> split sep x = [x].
Proof.
  induction x as [|c r IH]; simpl; [done|].
  intros [Hc Hr]%orb_false_elim. rewrite Hc, (IH Hr). done.
Qed.

Lemma split_app_sep sep x r :
  contains sep x = false ->
  split sep (x +:+ String sep r) = x :: split sep r.
Proof.
  induction x as [|c x IH]; simpl.
  - intros _. by rewrite Ascii.eqb_refl.
  - intros [Hc Hx]%orb_false_elim. by rewrite Hc, (IH Hx).
Qed.

(** Splitting undoes joining when no item contains the separator. *)
Lemma split_join sep l :
  l ≠ [] -> Forall (fun x => contains sep x = false) l ->
  split sep (join (String sep EmptyString) l) = l.
Proof.
  induction l as [|x l IH]; [done|]. intros _ Hl.
  inversion Hl as [|? ? Hx Hl']; subst.
  destruct l as [|y l].
  - simpl. by apply split_no_sep_id.
  - change (join (String sep EmptyString) (x :: y :: l))
      with (x +:+ String sep (join (String sep EmptyString) (y :: l))).
    rewrite (split_app_sep _ _ _ Hx), IH; done.
Qed.

Lemma truthy_Some_nonempty s : truthy (Some s) = true <-> s ≠ EmptyString.
Proof. destruct s; simpl; split; intros; congruence. Qed.

(** [format] returns a text without braces unchanged, whatever the
    rendering of fields. *)
Lemma str_format_no_braces render_field artifact s :
  contains "{" s = false -> contains "}" s = false ->
  str_format render_field artifact s = Ok s.
Proof.
  unfold str_format. induction s as [|c r IH]; simpl; [done|].
  intros [Ho Hr]%orb_false_elim [Hc Hr']%orb_false_elim.
  rewrite Ho, Hc, (IH Hr Hr'). done.
Qed.

(** ** The coordinate model *)

Section CoordinateProperties.
Variable render_field : string -> option Artifact -> result string.

(** What [parse] returns on an input with at least two segments and a
    non-empty group and artifact. *)
Lemma parse_segments input g a rest :
  split ":" input = g :: a :: rest ->
  g ≠ EmptyString -> a ≠ EmptyString ->
  parse render_field input =
    Ok (mkArtifact g a
          (if 3 <=? length (g :: a :: rest) then last (g :: a :: rest) else None)
          (if 5 <=? length (g :: a :: rest) then rest !! 1 else None)
          (if 4 <=? length (g :: a :: rest) then rest !! 0 else None)).
Proof.
  intros Hs Hg Ha. unfold parse. rewrite Hs.
  apply truthy_Some_nonempty in Hg, Ha.
  unfold Artifact_init. cbn [length lookup list_lookup]. simpl (_ <? _).
  rewrite Hg, Ha. reflexivity.
Qed.

(** The constructor rejects an empty group or artifact. *)
Lemma parse_empty_group_or_artifact input g a rest :
  split ":" input = g :: a :: rest ->
  g = EmptyString \/ a = EmptyString ->
  parse render_field input =
    Raise (ArtifactError None "artifact_id and group_id must be provided").
Proof.
  intros Hs Hga. unfold parse. rewrite Hs. simpl (_ <? _). cbv iota.
  unfold Artifact_init. cbn [length lookup list_lookup].
  destruct Hga as [-> | ->]; [reflexivity|].
  destruct g; reflexivity.
Qed.

(** X3: an input without a colon and without braces is rejected with the
    coordinate-format error that names it. *)
Lemma parse_one_segment input :
  length (split ":" input) < 2 ->
  contains "{" input = false -> contains "}" input = false ->
  parse render_field input =
    Raise (ArtifactError None ("invalid Maven coordinates: " +:+ input)).
Proof.
  intros Hlen Ho Hc. unfold parse.
  apply Nat.ltb_lt in Hlen. rewrite Hlen.
  unfold raise_ArtifactError. rewrite str_format_no_braces; done.
Qed.

(** X2: the segment table of the parser.  With a non-empty group and
    artifact, two segments give the group and the artifact alone, a third
    segment is the version, with four segments the third is the extension
    and the fourth the version, and with five the fourth is the classifier
    and the fifth the version. *)
Lemma parse_by_segment_count input g a :
  g ≠ EmptyString -> a ≠ EmptyString ->
  (split ":" input = [g; a] ->
     parse render_field input = Ok (mkArtifact g a None None None)) /\
  (forall v, split ":" input = [g; a; v] ->
     parse render_field input = Ok (mkArtifact g a (Some v) None None)) /\
  (forall t v, split ":" input = [g; a; t; v] ->
     parse render_field input = Ok (mkArtifact g a (Some v) None (Some t))) /\
  (forall t c v, split ":" input = [g; a; t; c; v] ->
     parse render_field input = Ok (mkArtifact g a (Some v) (Some c) (Some t))).
Proof.
  intros Hg Ha.
  repeat split; intros;
    match goal with H : split _ _ = _ |- _ => by rewrite (parse_segments _ _ _ _ H Hg Ha) end.
Qed.

(** C5, at the failing input: a lone opening brace is a one-segment input,
    and constructing the coordinate-format error for it raises
    [ValueError] from [str.format], so [parse] does not fail with an
    [ArtifactError]. *)
Theorem parse_lone_brace :
  length (split ":" "{") = 1 /\
  parse render_field "{" = Raise (Builtin ValueError) /\
  is_ArtifactError (parse render_field "{") = false.
Proof. repeat split. Qed.

(** C10, amended: an input with six or more segments, whose group and
    artifact are not empty, is accepted; the group, artifact, extension and
    classifier are the first four segments, the version is the last one,
    and the segments in between ([mid]) do not occur in the result. *)
Theorem parse_six_or_more input g a t c mid v :
  split ":" input = g :: a :: t :: c :: mid ++ [v] ->
  mid ≠ [] ->
  g ≠ EmptyString -> a ≠ EmptyString ->
  6 <= length (split ":" input) /\
  parse render_field input = Ok (mkArtifact g a (Some v) (Some c) (Some t)).
Proof.
  intros Hs Hmid Hg Ha. split.
  - rewrite Hs. destruct mid; [done|]. simpl. rewrite length_app. simpl. lia.
  - assert (last (g :: a :: t :: c :: mid ++ [v]) = Some v) as Hlast.
    { change (g :: a :: t :: c :: mid ++ [v]) with ([g; a; t; c] ++ mid ++ [v]).
      by rewrite app_assoc, last_snoc. }
    rewrite (parse_segments _ _ _ _ Hs Hg Ha), Hlast.
    destruct mid; [done|]. reflexivity.
Qed.
End CoordinateProperties.

Lemma parse_six_or_more_witness :
  6 <= length (split ":" "g:a:war:sources:x:y:1.0") /\
  parse render_keyword "g:a:war:sources:x:y:1.0"
  = Ok (mkArtifact "g" "a" (Some "1.0") (Some "sources") (Some "war")).
Proof.
  apply (parse_six_or_more render_keyword "g:a:war:sources:x:y:1.0"
           "g" "a" "war" "sources" ["x"; "y"] "1.0"); [reflexivity | | | ]; discriminate.
Defined.

(** C10, counterexample: the input [":a:war:sources:x:1.0"] has six
    segments, and [parse] rejects it: its group is empty, and the
    constructor raises the [ArtifactError] for a missing group or
    artifact. *)
Lemma parse_six_segments_empty_group :
  split ":" ":a:war:sources:x:1.0" = [""; "a"; "war"; "sources"; "x"; "1.0"] /\
  length (split ":" ":a:war:sources:x:1.0") = 6 /\
  parse render_keyword ":a:war:sources:x:1.0"
  = Raise (ArtifactError None "artifact_id and group_id must be provided") /\
  forall x, parse render_keyword ":a:war:sources:x:1.0" ≠ Ok x.
Proof. repeat split. discriminate. Qed.

(** ** Parsing and serialization *)

Lemma raise_ArtifactError_not_Ok {A} render_field artifact message (x : A) :
  raise_ArtifactError render_field artifact message ≠ Ok x.
Proof. unfold raise_ArtifactError. by destruct (str_format _ _ _). Qed.

(** [parse] succeeds only on at least two segments with a non-empty group
    and artifact. *)
Lemma parse_Ok_inv render_field input x :
  parse render_field input = Ok x ->
  exists g a rest,
    split ":" input = g :: a :: rest /\ g ≠ EmptyString /\ a ≠ EmptyString.
Proof.
  intros Hp. destruct (split ":" input) as [|g [|a rest]] eqn:Hs.
  - by destruct (split_not_nil ":" input).
  - unfold parse in Hp. rewrite Hs in Hp. simpl in Hp.
    by apply raise_ArtifactError_not_Ok in Hp.
  - exists g, a, rest. split; [done|].
    destruct (decide (g = EmptyString)) as [Hg|Hg];
      [rewrite (parse_empty_group_or_artifact _ _ _ _ _ Hs (or_introl Hg)) in Hp; done|].
    destruct (decide (a = EmptyString)) as [Ha|Ha];
      [rewrite (parse_empty_group_or_artifact _ _ _ _ _ Hs (or_intror Ha)) in Hp; done|].
    done.
Qed.

Lemma py_or_None_falsy x : truthy (py_or x None) = false -> py_or x None = None.
Proof. unfold py_or. destruct (truthy x) eqn:Hx; [congruence | done]. Qed.

Lemma py_or_None_truthy x : truthy (py_or x None) = true -> py_or x None = x.
Proof. unfold py_or. by destruct (truthy x). Qed.

Lemma last_elem_of {A} (l : list A) x : last l = Some x -> x ∈ l.
Proof.
  rewrite last_lookup. apply list_elem_of_lookup_2.
Qed.

(** C3, counterexample: the four-segment input ["g:a:jar:1.0"] parses to a
    coordinate with extension ["jar"] and no classifier; its serialization is
    ["g:a:1.0"], and parsing that string gives another coordinate (its
    extension is [None]), whose serialization raises [TypeError]. *)
Lemma parse_str_roundtrip_fails :
  let a1 := mkArtifact "g" "a" (Some "1.0") None (Some "jar") in
  let a2 := mkArtifact "g" "a" (Some "1.0") None None in
  parse render_keyword "g:a:jar:1.0" = Ok a1 /\
  Artifact_str a1 = Ok "g:a:1.0" /\
  parse render_keyword "g:a:1.0" = Ok a2 /\
  a2 ≠ a1 /\
  Artifact_str a2 = Raise (Builtin TypeError).
Proof. repeat split. discriminate. Qed.

(** C3, amended: take the coordinate as [main] builds it from the string
    (the parsed fields, completed by the option defaults, extension
    ["jar"]).  When its extension is ["jar"] and it has no classifier, its
    serialization is [group:artifact] followed by [:version] when there is
    a version, and building the coordinate from that string gives the same
    coordinate again. *)
Theorem main_artifact_roundtrip render_field input c :
  main_artifact render_field (params_of_name input) = Ok c ->
  extension c = Some "jar" ->
  truthy (classifier c) = false ->
  exists s,
    Artifact_str c = Ok s /\
    s = join ":" ([group_id c; artifact_id c]
                  ++ (if truthy (version c) then [default EmptyString (version c)] else [])) /\
    main_artifact render_field (params_of_name s) = Ok c.
Proof.
  unfold main_artifact, params_of_name. cbn [p_name p_version p_classifier p_extension
    p_group_id p_artifact_id default from_option id].
  destruct (truthy (Some input)); [|intros H; by apply raise_ArtifactError_not_Ok in H].
  destruct (parse render_field input) as [x|] eqn:Hp; [|done].
  destruct (parse_Ok_inv _ _ _ Hp) as (g & a & rest & Hs & Hg & Ha).
  rewrite (parse_segments _ _ _ _ _ Hs Hg Ha) in Hp.
  match type of Hp with Ok ?y = Ok _ => assert (x = y) as -> by congruence end.
  clear Hp.
  pose proof (split_no_sep ":" input) as Hsep. rewrite Hs in Hsep.
  assert (contains ":" g = false) as Hgc by (by inversion Hsep).
  assert (contains ":" a = false) as Hac
    by (inversion Hsep as [|? ? _ Hsep']; by inversion Hsep').
  assert (forall v',
            (if 3 <=? length (g :: a :: rest) then last (g :: a :: rest) else None)
            = Some v' -> contains ":" v' = false) as Hvc.
  { intros v' Ev. destruct (3 <=? _); [|done].
    apply last_elem_of in Ev. rewrite Forall_forall in Hsep. by apply Hsep. }
  revert Hvc.
  generalize (if 3 <=? length (g :: a :: rest) then last (g :: a :: rest) else None).
  generalize (if 5 <=? length (g :: a :: rest) then rest !! 1 else None).
  generalize (if 4 <=? length (g :: a :: rest) then rest !! 0 else None).
  clear Hs Hsep. intros t cl v Hvc.
  cbn [mbind result_bind group_id artifact_id version classifier extension].
  intros [= <-]. cbn [group_id artifact_id version classifier extension].
  intros Hext Hcl.
  unfold Artifact_str. cbn [group_id artifact_id version classifier extension].
  rewrite Hext, Hcl, (py_or_None_falsy _ Hcl). rewrite bool_decide_eq_true_2 by done.
  cbn [negb orb].
  destruct (truthy (py_or v None)) eqn:Hv.
  - rewrite (py_or_None_truthy _ Hv) in *.
    destruct v as [v'|]; [|done].
    specialize (Hvc v' eq_refl).
    eexists. split; [reflexivity|]. split; [reflexivity|].
    cbn [app default from_option id join].
    assert (split ":" (g +:+ ":" +:+ a +:+ ":" +:+ v') = [g; a; v']) as Hs'.
    { apply (split_join ":" [g; a; v']); [done|]. by repeat constructor. }
    assert (truthy (Some (g +:+ ":" +:+ a +:+ ":" +:+ v')) = true) as ->
      by (by destruct g).
    rewrite (parse_segments _ _ _ _ _ Hs' Hg Ha).
    destruct v'; [done|]. reflexivity.
  - rewrite (py_or_None_falsy _ Hv).
    eexists. split; [reflexivity|]. split; [reflexivity|].
    cbn [app default from_option id join].
    assert (split ":" (g +:+ ":" +:+ a) = [g; a]) as Hs'.
    { apply (split_join ":" [g; a]); [done|]. by repeat constructor. }
    assert (truthy (Some (g +:+ ":" +:+ a)) = true) as -> by (by destruct g).
    rewrite (parse_segments _ _ _ _ _ Hs' Hg Ha). reflexivity.
Qed.

Lemma main_artifact_roundtrip_witness :
  exists s,
    Artifact_str (mkArtifact "g" "a" (Some "1.0") None (Some "jar")) = Ok s /\
    s = join ":" (["g"; "a"] ++ ["1.0"]) /\
    main_artifact render_keyword (params_of_name s)
    = Ok (mkArtifact "g" "a" (Some "1.0") None (Some "jar")).
Proof.
  apply (main_artifact_roundtrip render_keyword "g:a:jar:1.0"
           (mkArtifact "g" "a" (Some "1.0") None (Some "jar"))); reflexivity.
Defined.

(** [main] builds a coordinate from every string with at least two segments
    and a non-empty group and artifact. *)
Lemma main_artifact_Ok render_field input g a rest :
  split ":" input = g :: a :: rest ->
  g ≠ EmptyString -> a ≠ EmptyString ->
  exists c, main_artifact render_field (params_of_name input) = Ok c.
Proof.
  intros Hs Hg Ha. unfold main_artifact, params_of_name.
  cbn [p_name p_version p_classifier p_extension default from_option id].
  destruct input as [|ch input]; [by destruct g|]. cbn [truthy].
  rewrite (parse_segments _ _ _ _ _ Hs Hg Ha). by eexists.
Qed.

(** ** URI construction and metadata resolution *)

Lemma append_cons x (a b : string) : String x a +:+ b = String x (a +:+ b).
Proof. reflexivity. Qed.

Lemma append_assoc (a b c : string) : (a +:+ b) +:+ c = a +:+ b +:+ c.
Proof. induction a as [|x a IH]; [done|]. by rewrite !append_cons, IH. Qed.

Lemma append_empty_r (a : string) : a +:+ EmptyString = a.
Proof. induction a as [|x a IH]; [done|]. by rewrite append_cons, IH. Qed.

Section ResolutionProperties.
Variable render_field : string -> option Artifact -> result string.
Variable self : MavenDownloader.

(** The URI of a release: the version of the artifact is used twice, and
    the [version_] argument is ignored. *)
Lemma uri_for_release artifact v e version_ :
  version artifact = Some v -> extension artifact = Some e ->
  endswith v "SNAPSHOT" = false ->
  _uri_for_artifact render_field self artifact version_ =
    Ok (spec_url (base self) (group_id artifact) (artifact_id artifact) v v
          (classifier artifact) e).
Proof.
  intros Hv He Hsnap. unfold _uri_for_artifact, is_snapshot, path, spec_url.
  rewrite Hv, He. cbn [mbind result_bind]. rewrite Hsnap. cbn [andb negb mbind result_bind].
  unfold percent_s. cbn [default from_option id].
  destruct (truthy (classifier artifact)); rewrite ?append_assoc; cbn [String.append];
    rewrite ?append_assoc; reflexivity.
Qed.

(** The URI of a snapshot with a resolved timestamp. *)
Lemma uri_for_snapshot artifact v e token :
  version artifact = Some v -> extension artifact = Some e ->
  endswith v "SNAPSHOT" = true ->
  token ≠ EmptyString ->
  _uri_for_artifact render_field self artifact (Some token) =
    Ok (spec_url (base self) (group_id artifact) (artifact_id artifact) v token
          (classifier artifact) e).
Proof.
  intros Hv He Hsnap Ht%truthy_Some_nonempty.
  unfold _uri_for_artifact, is_snapshot, path, spec_url.
  rewrite Hv, He. cbn [mbind result_bind]. rewrite Hsnap, Ht.
  cbn [andb negb mbind result_bind].
  unfold percent_s. cbn [default from_option id].
  destruct (truthy (classifier artifact)); rewrite ?append_assoc; cbn [String.append];
    rewrite ?append_assoc; reflexivity.
Qed.

(** A snapshot without a resolved timestamp. *)
Lemma uri_for_snapshot_unresolved artifact v version_ :
  version artifact = Some v ->
  endswith v "SNAPSHOT" = true ->
  truthy version_ = false ->
  _uri_for_artifact render_field self artifact version_ =
    Raise (ArtifactError (Some artifact) "Expected unique version for snapshot artifact").
Proof.
  intros Hv Hsnap Ht. unfold _uri_for_artifact, is_snapshot.
  rewrite Hv. cbn [mbind result_bind]. rewrite Hsnap, Ht. reflexivity.
Qed.

(** C7: for a coordinate with a version and an extension, the URI is
    [{base}/{group-as-path}/{artifact}/{version}/{artifact}-{token}[-{classifier}].{extension}];
    the path segment is the version of the coordinate; the token is that
    version for a release and the resolved timestamp for a snapshot; and a
    snapshot without a resolved timestamp raises an [ArtifactError]. *)
Theorem uri_for_artifact_spec artifact v e version_ :
  version artifact = Some v -> extension artifact = Some e ->
  _uri_for_artifact render_field self artifact version_ =
    if endswith v "SNAPSHOT" then
      if truthy version_ then
        Ok (spec_url (base self) (group_id artifact) (artifact_id artifact) v
              (default EmptyString version_) (classifier artifact) e)
      else
        Raise (ArtifactError (Some artifact) "Expected unique version for snapshot artifact")
    else
      Ok (spec_url (base self) (group_id artifact) (artifact_id artifact) v v
            (classifier artifact) e).
Proof.
  intros Hv He. destruct (endswith v "SNAPSHOT") eqn:Hsnap.
  - destruct (truthy version_) eqn:Ht.
    + destruct version_ as [token|]; [|done].
      apply uri_for_snapshot; [done..|]. by apply truthy_Some_nonempty.
    + by apply uri_for_snapshot_unresolved with v.
  - by apply uri_for_release.
Qed.
End ResolutionProperties.

Lemma uri_for_artifact_spec_witness :
  _uri_for_artifact render_keyword (MavenDownloader_init "http://repo/" None None)
    (mkArtifact "org.apache.maven" "maven" (Some "3.2.1") None (Some "jar")) None
  = Ok "http://repo/org/apache/maven/maven/3.2.1/maven-3.2.1.jar".
Proof.
  apply (uri_for_artifact_spec render_keyword (MavenDownloader_init "http://repo/" None None)
           (mkArtifact "org.apache.maven" "maven" (Some "3.2.1") None (Some "jar"))
           "3.2.1" "jar" None); reflexivity.
Defined.

Section SnapshotResolution.
Variable render_field : string -> option Artifact -> result string.
Variable self : MavenDownloader.

(** C6: snapshot resolution keeps the elements whose [extension] child
    equals the extension of the coordinate and, when the coordinate has a
    classifier, among them those whose [classifier] child equals it.  With
    no element left it raises the artifact-not-found error; otherwise it
    resolves to the [value] child of the first element left: the result is
    the URI built with that value, which for a snapshot coordinate and a
    non-empty value is the URI whose file name carries the value. *)
Theorem find_matching_artifact_spec elems artifact :
  let by_extension :=
    filter (fun el => findtext "extension" el = extension artifact) elems in
  let survivors :=
    if truthy (classifier artifact) then
      filter (fun el => findtext "classifier" el = classifier artifact) by_extension
    else by_extension in
  (survivors = [] ->
     _find_matching_artifact render_field self elems artifact =
       Raise (ArtifactError (Some artifact) "Artifact %(artifact)s not found")) /\
  (forall el rest, survivors = el :: rest ->
     _find_matching_artifact render_field self elems artifact =
       _uri_for_artifact render_field self artifact (findtext "value" el)) /\
  (forall el rest v e value, survivors = el :: rest ->
     version artifact = Some v -> endswith v "SNAPSHOT" = true ->
     extension artifact = Some e ->
     findtext "value" el = Some value -> value ≠ EmptyString ->
     _find_matching_artifact render_field self elems artifact =
       Ok (spec_url (base self) (group_id artifact) (artifact_id artifact) v value
             (classifier artifact) e)).
Proof.
  intros by_extension survivors.
  assert (_find_matching_artifact render_field self elems artifact =
            match survivors with
            | [] => raise_ArtifactError render_field (Some artifact)
                      "Artifact %(artifact)s not found"
            | el :: _ => _uri_for_artifact render_field self artifact (findtext "value" el)
            end) as Heq by reflexivity.
  rewrite Heq. repeat split.
  - by intros ->.
  - by intros el rest ->.
  - intros el rest v e value -> Hv Hsnap He Hval Hne. rewrite Hval.
    by apply uri_for_snapshot.
Qed.
End SnapshotResolution.

Lemma find_matching_artifact_spec_witness :
  _find_matching_artifact render_keyword (MavenDownloader_init "http://repo" None None)
    [snapshotVersion [("extension", "pom"); ("value", "1.0-20230101.120000-1")];
     snapshotVersion [("extension", "jar"); ("value", "1.0-20230101.120000-1")]]
    (mkArtifact "g" "a" (Some "1.0-SNAPSHOT") None (Some "jar"))
  = Ok "http://repo/g/a/1.0-SNAPSHOT/a-1.0-20230101.120000-1.jar"
  /\
  _find_matching_artifact render_keyword (MavenDownloader_init "http://repo" None None)
    [snapshotVersion [("extension", "pom"); ("value", "1.0-20230101.120000-1")]]
    (mkArtifact "g" "a" (Some "1.0-SNAPSHOT") None (Some "jar"))
  = Raise (ArtifactError (Some (mkArtifact "g" "a" (Some "1.0-SNAPSHOT") None (Some "jar")))
             "Artifact %(artifact)s not found").
Proof.
  split.
  - pose proof (find_matching_artifact_spec render_keyword
             (MavenDownloader_init "http://repo" None None)
             [snapshotVersion [("extension", "pom"); ("value", "1.0-20230101.120000-1")];
              snapshotVersion [("extension", "jar"); ("value", "1.0-20230101.120000-1")]]
             (mkArtifact "g" "a" (Some "1.0-SNAPSHOT") None (Some "jar"))) as H.
    cbv zeta in H. destruct H as (_ & _ & H).
    apply (H (snapshotVersion [("extension", "jar"); ("value", "1.0-20230101.120000-1")])
             [] "1.0-SNAPSHOT" "jar" "1.0-20230101.120000-1"); try reflexivity.
    discriminate.
  - pose proof (find_matching_artifact_spec render_keyword
             (MavenDownloader_init "http://repo" None None)
             [snapshotVersion [("extension", "pom"); ("value", "1.0-20230101.120000-1")]]
             (mkArtifact "g" "a" (Some "1.0-SNAPSHOT") None (Some "jar"))) as H.
    cbv zeta in H. destruct H as (H & _). apply H. reflexivity.
Defined.

(** ** The state of an invocation *)

Lemma M_bind_inv {A B} (m : M A) (f : A -> M B) w r w' :
  (m ≫= f) w = (r, w') ->
  (exists a w1, m w = (Ok a, w1) /\ f a w1 = (r, w')) \/
  (exists e, m w = (Raise e, w') /\ r = Raise e).
Proof.
  unfold mbind, M_bind. destruct (m w) as [[a|e] w1]; intros H.
  - left. by exists a, w1.
  - right. exists e. by injection H as <- <-.
Qed.

Lemma get_files_bind {A} (k : gmap string Node -> M A) w :
  (get_files ≫= k) w = k (files w) w.
Proof. reflexivity. Qed.

Lemma M_bind_eq {A B} (m : M A) (f : A -> M B) w :
  (m ≫= f) w =
    match m w with
    | (Ok a, w') => f a w'
    | (Raise e, w') => (Raise e, w')
    end.
Proof. reflexivity. Qed.

Lemma M_bind_Ok {A B} (m : M A) (f : A -> M B) w a w1 :
  m w = (Ok a, w1) -> (m ≫= f) w = f a w1.
Proof. unfold mbind, M_bind. by intros ->. Qed.

Lemma keeps_files_ret {A} (a : A) : keeps_files (mret a).
Proof. by intros w r w' [= <- <-]. Qed.

Lemma keeps_files_lift {A} (x : result A) : keeps_files (lift x).
Proof. by intros w r w' [= <- <-]. Qed.

Lemma keeps_files_raise {A} e : keeps_files (@raise A e).
Proof. apply keeps_files_lift. Qed.

Lemma keeps_files_get_files : keeps_files get_files.
Proof. by intros w r w' [= <- <-]. Qed.

Lemma keeps_files_send req : keeps_files (send req).
Proof. by intros w r w' [= <- <-]. Qed.

Lemma keeps_files_bind {A B} (m : M A) (f : A -> M B) :
  keeps_files m -> (forall a, keeps_files (f a)) -> keeps_files (m ≫= f).
Proof.
  intros Hm Hf w r w' [(a & w1 & H1 & H2) | (e & H1 & _)]%M_bind_inv.
  - rewrite (Hf _ _ _ _ H2). by apply (Hm _ _ _ H1).
  - by apply (Hm _ _ _ H1).
Qed.

Create HintDb keeps.
#[local] Hint Resolve keeps_files_ret keeps_files_lift keeps_files_raise
  keeps_files_get_files keeps_files_send : keeps.

Ltac keeps_files :=
  repeat first
    [ apply keeps_files_bind; [|intros ?]
    | progress eauto with keeps
    | match goal with
      | |- keeps_files (if ?b then _ else _) => destruct b
      | |- keeps_files (match ?x with _ => _ end) => destruct x
      end ].

Lemma ignores_world_lift {A} (x : result A) : ignores_world (lift x).
Proof. by intros w w'. Qed.

Lemma ignores_world_ret {A} (a : A) : ignores_world (mret a).
Proof. by intros w w'. Qed.

Lemma ignores_world_send req : ignores_world (send req).
Proof. by intros w w'. Qed.

Lemma ignores_world_bind {A B} (m : M A) (f : A -> M B) :
  ignores_world m -> (forall a, ignores_world (f a)) -> ignores_world (m ≫= f).
Proof.
  intros Hm Hf w w'. specialize (Hm w w'). unfold mbind, M_bind.
  destruct (m w) as [[a|e] w1], (m w') as [[a'|e'] w1']; simplify_eq/=; [apply Hf | done].
Qed.

#[local] Hint Resolve ignores_world_lift ignores_world_ret ignores_world_send : keeps.

Ltac ignores_world :=
  repeat first
    [ apply ignores_world_bind; [|intros ?]
    | apply ignores_world_lift
    | progress eauto with keeps
    | match goal with
      | |- ignores_world (if ?b then _ else _) => destruct b
      | |- ignores_world (match ?x with _ => _ end) => destruct x
      end ].

(** Writing a file where there is no directory changes no answer of
    [path.isdir]. *)
Lemma path_isdir_insert_file (fs : gmap string Node) target data p :
  path_isdir fs target = false ->
  path_isdir (<[target := File data]> fs) p = path_isdir fs p.
Proof.
  unfold path_isdir. intros Htarget.
  destruct (decide (target = p)) as [<-|Hne].
  - rewrite lookup_insert_eq, Htarget. by apply bool_decide_eq_false_2.
  - by rewrite lookup_insert_ne.
Qed.

Section DownloaderProperties.
Variable render_field : string -> option Artifact -> result string.
Variable b64encode : string -> string.
Variable md5_hexdigest : string -> string.
Variable ET_parse : string -> option Element.
Variable urlopen : Request -> Cause + Response.
Variable self : MavenDownloader.

(** The methods of [self] in this environment. *)
#[local] Abbreviation request_for' := (request_for b64encode self).
#[local] Abbreviation _request' := (_request b64encode urlopen self).
#[local] Abbreviation _find_latest_version_available' :=
  (_find_latest_version_available render_field b64encode ET_parse urlopen self).
#[local] Abbreviation find_uri_for_artifact' :=
  (find_uri_for_artifact render_field b64encode ET_parse urlopen self).
#[local] Abbreviation _is_same_md5' := (_is_same_md5 b64encode md5_hexdigest urlopen self).
#[local] Abbreviation download_resolve' :=
  (download_resolve render_field b64encode ET_parse urlopen self).
#[local] Abbreviation download' :=
  (download render_field b64encode md5_hexdigest ET_parse urlopen self).

Lemma keeps_files_request {A} url failmsg (f : Response -> result A) :
  keeps_files (_request' url failmsg f).
Proof. unfold _request. keeps_files. Qed.

Lemma keeps_files_find_latest artifact :
  keeps_files (_find_latest_version_available' artifact).
Proof.
  unfold _find_latest_version_available.
  pose proof (@keeps_files_request Element). keeps_files.
Qed.

Lemma keeps_files_find_uri artifact : keeps_files (find_uri_for_artifact' artifact).
Proof.
  unfold find_uri_for_artifact.
  pose proof (@keeps_files_request Element). keeps_files.
Qed.

Lemma keeps_files_is_same_md5 file remote_md5 :
  keeps_files (_is_same_md5' file remote_md5).
Proof.
  unfold _is_same_md5, _local_md5.
  pose proof (@keeps_files_request string). keeps_files.
Qed.

Lemma keeps_files_download_resolve artifact dest :
  keeps_files (download_resolve' artifact dest).
Proof.
  unfold download_resolve.
  pose proof keeps_files_find_latest. pose proof keeps_files_find_uri. keeps_files.
Qed.
(** A request the repository answers. *)
Lemma request_Ok {A} url failmsg (f : Response -> result A) w response :
  urlopen (request_for' url) = inr response ->
  _request' url failmsg f w =
    (f response, mkWorld (files w) (requests w ++ [request_for' url])).
Proof.
  intros Hopen. unfold _request, mbind, M_bind, send, lift. by rewrite Hopen.
Qed.

Lemma open_w_Ok p w :
  path_isdir (files w) p = false ->
  path_isdir (files w) (path_dirname p) = true ->
  open_w p w = (Ok tt, mkWorld (<[p := File EmptyString]> (files w)) (requests w)).
Proof.
  intros Hp Hparent. unfold open_w, mbind, M_bind, get_files, put_file.
  cbn [files requests]. by rewrite Hp, Hparent.
Qed.

(** X23: in check mode a transfer leaves the destination empty, whatever it
    held: the file is opened for writing before [check_mode] is tested.
    The result is [changed = true], and the artifact has been requested. *)
Lemma download_check_mode_transfer artifact dest w target resolved u n w1 w2 response data :
  download_resolve' artifact dest w = (Ok (target, resolved, u, n), w1) ->
  _is_same_md5' target (u +:+ ".md5") w1 = (Ok false, w2) ->
  urlopen (request_for' u) = inr response ->
  read response = Ok data ->
  path_isdir (files w) target = false ->
  path_isdir (files w) (path_dirname target) = true ->
  download' artifact dest true w =
    (Ok (mkInfo true u target n resolved),
     mkWorld (<[target := File EmptyString]> (files w)) (requests w2 ++ [request_for' u])).
Proof.
  intros Hres Hsame Hopen Hread Htarget Hparent.
  pose proof (keeps_files_download_resolve _ _ _ _ _ Hres) as Hfs1.
  pose proof (keeps_files_is_same_md5 _ _ _ _ _ Hsame) as Hfs2.
  unfold download. rewrite (M_bind_Ok _ _ _ _ _ Hres).
  rewrite (M_bind_Ok _ _ _ _ _ Hsame). cbn [negb].
  rewrite (M_bind_Ok _ _ _ _ _ (request_Ok _ _ Ok _ _ Hopen)).
  cbn [Response_truthy].
  erewrite (M_bind_Ok (open_w target)); last first.
  { apply open_w_Ok; cbn [files]; rewrite Hfs2, Hfs1; done. }
  unfold mbind at 1, M_bind at 1, mbind, M_bind, lift. rewrite Hread.
  cbn [files requests mret M_ret]. by rewrite Hfs2, Hfs1.
Qed.

(** C8: when the destination is not a directory and its parent directory
    does not exist, [download] raises the destination [Error] in the world
    it started from: the file system is as before and no request has been
    added to the requests sent. *)
Theorem download_missing_parent artifact dest check_mode w :
  path_isdir (files w) dest = false ->
  path_isdir (files w) (path_dirname dest) = false ->
  download render_field b64encode md5_hexdigest ET_parse urlopen self
    artifact dest check_mode w =
    (Raise (Error ("Destination directory " +:+ dest +:+ " does not exist")), w) /\
  requests (download render_field b64encode md5_hexdigest ET_parse urlopen self
              artifact dest check_mode w).2 = requests w.
Proof.
  intros Hdest Hparent.
  assert (download' artifact dest check_mode w =
            (Raise (Error ("Destination directory " +:+ dest +:+ " does not exist")), w))
    as Heq.
  { unfold download, download_resolve, mbind, M_bind, get_files.
    rewrite Hdest, Hparent. reflexivity. }
  by rewrite Heq.
Qed.

(** The checksum comparison on an existing file. *)
Lemma is_same_md5_file file remote_md5 w content response data :
  files w !! file = Some (File content) ->
  urlopen (request_for' remote_md5) = inr response ->
  read response = Ok data ->
  _is_same_md5' file remote_md5 w =
    (Ok (bool_decide (md5_hexdigest content = data)),
     mkWorld (files w) (requests w ++ [request_for' remote_md5])).
Proof.
  intros Hfile Hopen Hread. destruct w as [fs rs]. cbn [files requests] in *.
  unfold _is_same_md5, _local_md5, _request, mbind, M_bind, get_files, send, lift,
    path_exists.
  cbn [files requests]. rewrite Hfile. rewrite bool_decide_eq_true_2 by eauto.
  cbn [negb mret M_ret files requests]. rewrite Hfile.
  cbn [mret M_ret files requests]. rewrite Hopen, Hread. reflexivity.
Qed.

(** C9: when the resolution succeeds, the destination is a file, and the
    checksum the repository serves at [{url}.md5] equals the digest of that
    file, [download] reports [changed = false]; the file system is the one
    it started from, and the only request after the resolution is the one
    for the checksum. *)
Theorem download_same_md5 artifact dest check_mode w target resolved u n w1 content response :
  download_resolve render_field b64encode ET_parse urlopen self artifact dest w
  = (Ok (target, resolved, u, n), w1) ->
  files w !! target = Some (File content) ->
  urlopen (request_for b64encode self (u +:+ ".md5")) = inr response ->
  read response = Ok (md5_hexdigest content) ->
  download render_field b64encode md5_hexdigest ET_parse urlopen self
    artifact dest check_mode w =
    (Ok (mkInfo false u target n resolved),
     mkWorld (files w) (requests w1 ++ [request_for b64encode self (u +:+ ".md5")])).
Proof.
  intros Hres Hfile Hopen Hread.
  pose proof (keeps_files_download_resolve _ _ _ _ _ Hres) as Hfs.
  rewrite <- Hfs in Hfile.
  unfold download. rewrite (M_bind_Ok _ _ _ _ _ Hres).
  rewrite (M_bind_Ok _ _ _ _ _ (is_same_md5_file _ _ _ _ _ _ Hfile Hopen Hread)).
  rewrite bool_decide_eq_true_2 by done. by rewrite Hfs.
Qed.

Lemma open_w_inv p w r w' :
  open_w p w = (r, w') ->
  (r = Raise (Builtin IOError) /\ w' = w) \/
  (r = Ok tt /\ w' = mkWorld (<[p := File EmptyString]> (files w)) (requests w)).
Proof.
  unfold open_w. rewrite get_files_bind. unfold raise, lift, put_file.
  repeat case_match; intros [= <- <-]; auto.
Qed.




(** Latest-version resolution: the request it sends, and its outcome on a
    well-formed metadata document, by the list of [version] elements. *)
Lemma find_latest_version_outcome artifact w response data root :
  let url := base self +:+ "/" +:+ replace "." "/" (group_id artifact) +:+ "/"
             +:+ artifact_id artifact +:+ "/maven-metadata.xml" in
  urlopen (request_for' url) = inr response ->
  read response = Ok data ->
  ET_parse data = Some root ->
  _find_latest_version_available' artifact w =
    (match last (findall ["versioning"; "versions"; "version"] root) with
     | Some el => Ok (text el)
     | None => Raise (Builtin IndexError)
     end,
     mkWorld (files w) (requests w ++ [request_for' url])).
Proof.
  intros url Hopen Hread Hparse. destruct w as [fs rs].
  unfold _find_latest_version_available, _request, parse_response, path,
    mbind, M_bind, send, lift.
  cbn [files requests result_bind].
  rewrite append_empty_r, !append_assoc. cbn [String.append]. fold url.
  rewrite Hopen. cbn [mbind result_bind].
  rewrite Hread. cbn [result_bind]. rewrite Hparse. cbn [ElementTree_truthy negb].
  by destruct (last _).
Qed.

Lemma local_md5_eq file w :
  _local_md5 md5_hexdigest file w =
    (match files w !! file with
     | Some (File content) => Ok (md5_hexdigest content)
     | _ => Raise (Builtin IOError)
     end, w).
Proof. unfold _local_md5. rewrite get_files_bind. by repeat case_match. Qed.

Lemma ignores_world_request {A} url failmsg (f : Response -> result A) :
  ignores_world (_request' url failmsg f).
Proof. unfold _request, raise. ignores_world. Qed.

Lemma ignores_world_find_latest artifact :
  ignores_world (_find_latest_version_available' artifact).
Proof.
  unfold _find_latest_version_available, raise.
  pose proof (@ignores_world_request Element). ignores_world.
Qed.

Lemma ignores_world_find_uri artifact : ignores_world (find_uri_for_artifact' artifact).
Proof.
  unfold find_uri_for_artifact.
  pose proof (@ignores_world_request Element). ignores_world.
Qed.

(** The resolution reads the file system only to tell whether the
    destination and its parent are directories. *)
Lemma download_resolve_isdir artifact dest w w' :
  path_isdir (files w') dest = path_isdir (files w) dest ->
  path_isdir (files w') (path_dirname dest) = path_isdir (files w) (path_dirname dest) ->
  (download_resolve' artifact dest w').1 = (download_resolve' artifact dest w).1.
Proof.
  intros Hdest Hparent. unfold download_resolve.
  rewrite !get_files_bind, Hdest, Hparent.
  apply ignores_world_bind.
  - unfold raise. ignores_world.
  - intros target. pose proof ignores_world_find_latest.
    pose proof ignores_world_find_uri. ignores_world.
Qed.

(** The comparison of the checksums reads the world only through its
    files. *)
Lemma is_same_md5_files file remote_md5 w w' :
  files w' = files w ->
  (_is_same_md5' file remote_md5 w').1 = (_is_same_md5' file remote_md5 w).1.
Proof.
  intros Hfs. unfold _is_same_md5.
  rewrite !get_files_bind, Hfs.
  destruct (negb _); [done|].
  rewrite (M_bind_eq (_local_md5 md5_hexdigest file) _ w'),
    (M_bind_eq (_local_md5 md5_hexdigest file) _ w), !local_md5_eq, Hfs.
  destruct (files w !! file) as [[|content]|]; try done.
  apply ignores_world_bind; [apply ignores_world_request|].
  intros ?. apply ignores_world_ret.
Qed.

(** When the comparison finds the checksums equal, nothing is transferred. *)
Lemma download_unchanged artifact dest check_mode w target resolved u n wa wb :
  download_resolve' artifact dest w = (Ok (target, resolved, u, n), wa) ->
  _is_same_md5' target (u +:+ ".md5") wa = (Ok true, wb) ->
  download' artifact dest check_mode w = (Ok (mkInfo false u target n resolved), wb).
Proof.
  intros Hres Hsame. unfold download.
  by rewrite (M_bind_Ok _ _ _ _ _ Hres), (M_bind_Ok _ _ _ _ _ Hsame).
Qed.

(** X24: a second invocation.  After a [download] that succeeded, and with
    a repository whose checksum at [{url}.md5] is the digest of the artifact
    it serves at [url], the same [download] reports [changed = false] and
    leaves the file system as the first one left it. *)
Corollary download_twice artifact dest w info w1 :
  download' artifact dest false w = (Ok info, w1) ->
  (forall response data,
     urlopen (request_for' (url info)) = inr response ->
     read response = Ok data ->
     exists sidecar,
       urlopen (request_for' (url info +:+ ".md5")) = inr sidecar /\
       read sidecar = Ok (md5_hexdigest data)) ->
  exists w2,
    download' artifact dest false w1 =
      (Ok (mkInfo false (url info) (dest_path info) (name info) (info_artifact info)), w2) /\
    files w2 = files w1.
Proof.
  unfold download at 1. intros Hd Hremote.
  apply M_bind_inv in Hd as [(resolved & wa & Hres & Hd) | (e' & _ & [=])].
  destruct resolved as [[[target resolved] u] n].
  apply M_bind_inv in Hd as [(same & wb & Hsame & Hd) | (e' & _ & [=])].
  pose proof (keeps_files_download_resolve _ _ _ _ _ Hres) as Hfa.
  pose proof (keeps_files_is_same_md5 _ _ _ _ _ Hsame) as Hfb.
  destruct same; cbn [negb] in Hd.
  - (* the first run found the checksums equal *)
    injection Hd as <- <-. cbn [url dest_path name info_artifact].
    destruct (download_resolve' artifact dest wb) as [r' wa'] eqn:Hres'.
    pose proof (download_resolve_isdir artifact dest w wb) as Hr.
    rewrite Hres, Hres' in Hr. cbn [fst] in Hr.
    rewrite Hr in Hres' by (by rewrite Hfb, Hfa).
    pose proof (keeps_files_download_resolve _ _ _ _ _ Hres') as Hfa'.
    destruct (_is_same_md5' target (u +:+ ".md5") wa') as [s' wb'] eqn:Hsame'.
    pose proof (is_same_md5_files target (u +:+ ".md5") wa wa') as Hs.
    rewrite Hsame, Hsame' in Hs. cbn [fst] in Hs.
    rewrite Hs in Hsame' by (by rewrite Hfa', Hfb).
    exists wb'. split; [by apply (download_unchanged _ _ _ _ _ _ _ _ wa')|].
    by rewrite (keeps_files_is_same_md5 _ _ _ _ _ Hsame').
  - (* the first run transferred the artifact *)
    apply M_bind_inv in Hd as [(response & wc & Hreq & Hd) | (e' & _ & [=])].
    unfold _request, mbind at 1, M_bind at 1, send in Hreq.
    destruct (urlopen (request_for' u)) as [cause|response'] eqn:Hopen; [done|].
    injection Hreq as -> <-.
    cbn [Response_truthy] in Hd.
    apply M_bind_inv in Hd as [([] & wd & Hopenw & Hd) | (e' & _ & [=])].
    apply M_bind_inv in Hd as [([] & we & Hwrite & Hd) | (e' & _ & [=])].
    injection Hd as <- <-. cbn [url dest_path name info_artifact] in *.
    unfold open_w, mbind, M_bind, get_files, put_file, raise, lift in Hopenw.
    cbn [files requests] in Hopenw.
    destruct (path_isdir (files wb) target) eqn:Htarget; [done|].
    destruct (negb _); [done|]. injection Hopenw as <-.
    unfold mbind, M_bind, lift, write, put_file in Hwrite.
    destruct (read response) as [data|] eqn:Hread; [|done].
    injection Hwrite as <-. cbn [files requests] in *.
    destruct (Hremote response data Hopen Hread) as (sidecar & Hside & Hdigest).
    rewrite insert_insert_eq.
    set (w1 := mkWorld _ _) in *.
    assert (forall p, path_isdir (files w1) p = path_isdir (files w) p) as Hisdir.
    { intros p. subst w1. cbn [files]. rewrite <- Hfa, <- Hfb.
      by apply path_isdir_insert_file. }
    destruct (download_resolve' artifact dest w1) as [r' wa'] eqn:Hres'.
    pose proof (download_resolve_isdir artifact dest w w1 (Hisdir _) (Hisdir _)) as Hr.
    rewrite Hres, Hres' in Hr. cbn [fst] in Hr. rewrite Hr in Hres'.
    pose proof (keeps_files_download_resolve _ _ _ _ _ Hres') as Hfa'.
    assert (files wa' !! target = Some (File data)) as Hfile.
    { rewrite Hfa'. subst w1. cbn [files]. apply lookup_insert_eq. }
    pose proof (is_same_md5_file _ _ _ _ _ _ Hfile Hside Hdigest) as Hsame'.
    rewrite bool_decide_eq_true_2 in Hsame' by done.
    eexists. split; [by eapply download_unchanged|]. cbn [files]. by rewrite Hfa'.
Qed.

End DownloaderProperties.

(** The versions [1.0; 1.1; 2.0] resolve to the last one listed. *)
Example find_latest_version_last :
  (_find_latest_version_available render_keyword example_b64
     (fun _ => Some (versions_doc ["1.0"; "1.1"; "2.0"])) metadata_repo
     (MavenDownloader_init "http://repo" None None)
     (mkArtifact "g" "a" None None (Some "jar")) (mkWorld ∅ [])).1
  = Ok (Some "2.0").
Proof. reflexivity. Qed.

(** C2, at the failing input: on a metadata document whose list of versions
    is empty, latest-version resolution raises [IndexError], which is not an
    [ArtifactError], and so does [download] for a coordinate without a
    version. *)
Theorem find_latest_version_empty_list :
  let artifact := mkArtifact "g" "a" None None (Some "jar") in
  let self := MavenDownloader_init "http://repo" None None in
  let ET_parse := fun _ : string => Some (versions_doc []) in
  let w := mkWorld example_files [] in
  findall ["versioning"; "versions"; "version"] (versions_doc []) = [] /\
  (_find_latest_version_available render_keyword example_b64 ET_parse metadata_repo
     self artifact w).1 = Raise (Builtin IndexError) /\
  is_ArtifactError
    (_find_latest_version_available render_keyword example_b64 ET_parse metadata_repo
       self artifact w).1 = false /\
  (download render_keyword example_b64 example_md5 ET_parse metadata_repo
     self artifact "/tmp" false w).1 = Raise (Builtin IndexError).
Proof. repeat split. Qed.

(** C1, at the failing input: in check mode, with an older file at the
    destination, [download] reports [changed = true] after two requests
    (checksum, artifact), and the destination file is left empty. *)
Theorem download_check_mode_truncates :
  let w := mkWorld example_files [] in
  let out := download render_keyword example_b64 example_md5 (fun _ => None)
               (example_repo (Some "new")) example_downloader example_artifact
               "/tmp" true w in
  files w !! "/tmp/maven.jar" = Some (File "old") /\
  changed <$> out.1 = Ok true /\
  req_url <$> requests out.2 = [example_url +:+ ".md5"; example_url] /\
  files out.2 !! "/tmp/maven.jar" = Some (File EmptyString).
Proof. vm_compute. repeat split. Qed.



Lemma download_missing_parent_witness :
  let out := download render_keyword example_b64 example_md5 (fun _ => None)
               (example_repo (Some "new")) example_downloader example_artifact
               "/srv/maven.jar" false (mkWorld example_files []) in
  out.1 = Raise (Error "Destination directory /srv/maven.jar does not exist") /\
  requests out.2 = [].
Proof.
  destruct (download_missing_parent render_keyword example_b64 example_md5
              (fun _ => None) (example_repo (Some "new")) example_downloader
              example_artifact "/srv/maven.jar" false (mkWorld example_files []))
    as [Hout Hreq]; [reflexivity | reflexivity |].
  cbv zeta. by rewrite Hout.
Defined.

Lemma download_same_md5_witness :
  download render_keyword example_b64 example_md5 (fun _ => None)
    (example_repo (Some "new")) example_downloader example_artifact
    "/tmp" false (mkWorld (<["/tmp/maven.jar" := File "new"]> example_files) [])
  = (Ok (mkInfo false example_url "/tmp/maven.jar" "org.apache.maven:maven:3.2.1"
           example_artifact),
     mkWorld (<["/tmp/maven.jar" := File "new"]> example_files)
       [mkRequest (example_url +:+ ".md5") [("User-Agent", "Ansible")]]).
Proof.
  etrans; [|shelve].
  apply (download_same_md5 render_keyword example_b64 example_md5 (fun _ => None)
           (example_repo (Some "new")) example_downloader example_artifact
           "/tmp" false
           (mkWorld (<["/tmp/maven.jar" := File "new"]> example_files) [])
           "/tmp/maven.jar" example_artifact example_url
           "org.apache.maven:maven:3.2.1"
           (mkWorld (<["/tmp/maven.jar" := File "new"]> example_files) [])
           "new" (mkResponse (Some (example_md5 "new")))); vm_compute; reflexivity.
  Unshelve. vm_compute; reflexivity.
Defined.

(** * Further properties of the coordinate model *)

(** X1: [parse] succeeds exactly on the inputs with at least two segments
    whose first two segments are not empty. *)
Theorem parse_succeeds_iff render_field input :
  (exists x, parse render_field input = Ok x) <->
  (exists g a rest,
     split ":" input = g :: a :: rest /\ g ≠ EmptyString /\ a ≠ EmptyString).
Proof.
  split.
  - intros [x Hx]. by apply parse_Ok_inv in Hx.
  - intros (g & a & rest & Hs & Hg & Ha).
    rewrite (parse_segments _ _ _ _ _ Hs Hg Ha). by eexists.
Qed.

Lemma parse_by_segment_count_witness :
  parse render_keyword "g:a" = Ok (mkArtifact "g" "a" None None None) /\
  parse render_keyword "g:a:1.0" = Ok (mkArtifact "g" "a" (Some "1.0") None None) /\
  parse render_keyword "g:a:war:1.0"
  = Ok (mkArtifact "g" "a" (Some "1.0") None (Some "war")) /\
  parse render_keyword "g:a:war:sources:1.0"
  = Ok (mkArtifact "g" "a" (Some "1.0") (Some "sources") (Some "war")).
Proof.
  assert ("g" ≠ EmptyString) as Hg by discriminate.
  assert ("a" ≠ EmptyString) as Ha by discriminate.
  split; [|split; [|split]].
  - by apply (parse_by_segment_count render_keyword "g:a" "g" "a" Hg Ha).
  - by apply (parse_by_segment_count render_keyword "g:a:1.0" "g" "a" Hg Ha).
  - by apply (parse_by_segment_count render_keyword "g:a:war:1.0" "g" "a" Hg Ha).
  - by apply (parse_by_segment_count render_keyword "g:a:war:sources:1.0" "g" "a" Hg Ha).
Defined.

Lemma parse_one_segment_witness :
  parse render_keyword "junit"
  = Raise (ArtifactError None "invalid Maven coordinates: junit").
Proof. apply (parse_one_segment render_keyword "junit"); [simpl; lia | done | done]. Defined.

(** X4: [ArtifactError.__init__] keeps a message without braces as it is:
    the exception raised carries the artifact and the message unchanged, and
    a [%(artifact)s] placeholder in it is not substituted. *)
Theorem raise_ArtifactError_no_braces {A} render_field artifact message :
  contains "{" message = false -> contains "}" message = false ->
  @raise_ArtifactError render_field A artifact message
  = Raise (ArtifactError artifact message).
Proof.
  intros Ho Hc. unfold raise_ArtifactError. by rewrite str_format_no_braces.
Qed.

Lemma raise_ArtifactError_no_braces_witness :
  @raise_ArtifactError render_keyword unit (Some example_artifact)
    "Artifact %(artifact)s not found"
  = Raise (ArtifactError (Some example_artifact) "Artifact %(artifact)s not found").
Proof. apply raise_ArtifactError_no_braces; reflexivity. Defined.

(** [join_items] on items that are all strings. *)
Lemma join_items_Some sep (l : list string) :
  join_items sep (Some <$> l) = Ok (join sep l).
Proof.
  unfold join_items.
  assert (mapM id (Some <$> l) = Some l) as ->; [|done].
  induction l as [|x l IH]; [done|]. cbn. by rewrite IH.
Qed.

(** X5: [__str__] raises [TypeError] exactly when the extension is [None];
    with an extension it returns a string. *)
Theorem Artifact_str_TypeError_iff (self : Artifact) :
  match extension self with
  | None => Artifact_str self = Raise (Builtin TypeError)
  | Some _ => exists s, Artifact_str self = Ok s
  end.
Proof.
  destruct self as [g a v c e]. unfold Artifact_str.
  cbn [extension classifier version group_id artifact_id].
  destruct e as [e|].
  - destruct (truthy c) eqn:Hc, (truthy v) eqn:Hv;
      destruct c as [c|]; try done; destruct v as [v|]; try done;
      destruct (bool_decide (Some e = Some "jar")); cbn [negb orb app];
      try (by eexists; apply (join_items_Some ":" [g; a; e; c; v]));
      try (by eexists; apply (join_items_Some ":" [g; a; e; c]));
      try (by eexists; apply (join_items_Some ":" [g; a; e; v]));
      try (by eexists; apply (join_items_Some ":" [g; a; e]));
      try (by eexists; apply (join_items_Some ":" [g; a; v]));
      try (by eexists; apply (join_items_Some ":" [g; a])).
  - rewrite bool_decide_eq_false_2 by done. cbn [negb orb].
    destruct (truthy c), (truthy v); destruct c, v; reflexivity.
Qed.

(** X6: [parse] undoes [__str__] on the coordinates that are written with
    their extension: a coordinate with a non-empty version and an
    extension, and either a classifier or an extension other than ["jar"],
    whose fields hold no colon, is serialized to a string that parses back
    to the same coordinate. *)
Theorem parse_str_roundtrip render_field (self : Artifact) v e :
  version self = Some v -> v ≠ EmptyString ->
  extension self = Some e ->
  truthy (classifier self) = true \/ (classifier self = None /\ e ≠ "jar") ->
  group_id self ≠ EmptyString -> artifact_id self ≠ EmptyString ->
  contains ":" (group_id self) = false -> contains ":" (artifact_id self) = false ->
  contains ":" v = false -> contains ":" e = false ->
  contains ":" (default EmptyString (classifier self)) = false ->
  exists s, Artifact_str self = Ok s /\ parse render_field s = Ok self.
Proof.
  destruct self as [g a ver c ext].
  cbn [extension classifier version group_id artifact_id].
  intros -> Hv -> Hcl Hg Ha Hgc Hac Hvc Hec Hcc.
  apply truthy_Some_nonempty in Hv as Hvt.
  unfold Artifact_str. cbn [extension classifier version group_id artifact_id].
  rewrite Hvt. destruct Hcl as [Hc | [-> He]].
  - rewrite Hc, orb_true_r. destruct c as [c|]; [|done]. cbn [default from_option id] in Hcc.
    exists (join ":" [g; a; e; c; v]). split; [apply (join_items_Some ":" [g; a; e; c; v])|].
    assert (split ":" (join ":" [g; a; e; c; v]) = [g; a; e; c; v]) as Hs.
    { apply split_join; [done|]. by repeat constructor. }
    by rewrite (parse_segments _ _ _ _ _ Hs Hg Ha).
  - rewrite bool_decide_eq_false_2 by congruence. cbn [negb orb truthy app].
    exists (join ":" [g; a; e; v]). split; [apply (join_items_Some ":" [g; a; e; v])|].
    assert (split ":" (join ":" [g; a; e; v]) = [g; a; e; v]) as Hs.
    { apply split_join; [done|]. by repeat constructor. }
    by rewrite (parse_segments _ _ _ _ _ Hs Hg Ha).
Qed.

Lemma parse_str_roundtrip_witness :
  exists s,
    Artifact_str (mkArtifact "g" "a" (Some "1.0") (Some "sources") (Some "jar")) = Ok s /\
    parse render_keyword s
    = Ok (mkArtifact "g" "a" (Some "1.0") (Some "sources") (Some "jar")).
Proof.
  apply (parse_str_roundtrip render_keyword
           (mkArtifact "g" "a" (Some "1.0") (Some "sources") (Some "jar")) "1.0" "jar");
    try reflexivity; try discriminate. by left.
Defined.

(** X7: the serialization of a coordinate without version is read back
    wrongly: with no version, no classifier and an extension other than
    ["jar"], [__str__] gives [group:artifact:extension], and [parse] takes
    the extension of that string for the version. *)
Theorem str_without_version_misparsed render_field (self : Artifact) e :
  truthy (version self) = false -> truthy (classifier self) = false ->
  extension self = Some e -> e ≠ "jar" -> e ≠ EmptyString ->
  group_id self ≠ EmptyString -> artifact_id self ≠ EmptyString ->
  contains ":" (group_id self) = false -> contains ":" (artifact_id self) = false ->
  contains ":" e = false ->
  Artifact_str self = Ok (group_id self +:+ ":" +:+ artifact_id self +:+ ":" +:+ e) /\
  parse render_field (group_id self +:+ ":" +:+ artifact_id self +:+ ":" +:+ e)
  = Ok (mkArtifact (group_id self) (artifact_id self) (Some e) None None).
Proof.
  destruct self as [g a ver c ext].
  cbn [extension classifier version group_id artifact_id].
  intros Hv Hc -> He Hne Hg Ha Hgc Hac Hec.
  unfold Artifact_str. cbn [extension classifier version group_id artifact_id].
  rewrite Hv, Hc. rewrite bool_decide_eq_false_2 by congruence. cbn [negb orb app].
  split; [apply (join_items_Some ":" [g; a; e])|].
  assert (split ":" (join ":" [g; a; e]) = [g; a; e]) as Hs.
  { apply split_join; [done|]. by repeat constructor. }
  by rewrite (parse_segments _ _ _ _ _ Hs Hg Ha).
Qed.

Lemma str_without_version_misparsed_witness :
  Artifact_str (mkArtifact "g" "a" None None (Some "war")) = Ok "g:a:war" /\
  parse render_keyword "g:a:war" = Ok (mkArtifact "g" "a" (Some "war") None None).
Proof.
  apply (str_without_version_misparsed render_keyword
           (mkArtifact "g" "a" None None (Some "war")) "war");
    try reflexivity; discriminate.
Defined.

Lemma endswith_eq s suffix :
  endswith s suffix =
    if String.eqb s suffix then true
    else match s with
         | EmptyString => false
         | String _ r => endswith r suffix
         end.
Proof. by destruct s. Qed.

(** [endswith] tests for a suffix. *)
Lemma endswith_spec s suffix :
  endswith s suffix = true <-> exists p, s = p +:+ suffix.
Proof.
  split.
  - induction s as [|c r IH]; rewrite endswith_eq.
    + destruct (String.eqb_spec EmptyString suffix) as [<-|_]; [|done].
      by exists EmptyString.
    + destruct (String.eqb_spec (String c r) suffix) as [<-|_].
      * by exists EmptyString.
      * intros [p ->]%IH. by exists (String c p).
  - intros [p ->]. induction p as [|c p IH]; rewrite endswith_eq.
    + change (EmptyString +:+ suffix) with suffix. by rewrite String.eqb_refl.
    + rewrite append_cons, IH. by destruct (String.eqb _ _).
Qed.

(** X8: [is_snapshot] answers [True] exactly for the coordinates whose
    version ends with [SNAPSHOT] (the version [SNAPSHOT] itself included),
    whatever stands before it; it raises on a coordinate without version. *)
Theorem is_snapshot_iff (self : Artifact) :
  (is_snapshot self = Ok true <-> exists p, version self = Some (p +:+ "SNAPSHOT")) /\
  (version self = None <-> is_snapshot self = Raise (Builtin AttributeError)).
Proof.
  unfold is_snapshot. destruct (version self) as [v|]; split; split; try done.
  - intros [= [p ->]%endswith_spec]. by exists p.
  - intros [p [= ->]]. f_equal. apply endswith_spec. by exists p.
  - by intros [p [=]].
Qed.

Lemma drop_last_snoc b c : drop_last (b +:+ String c EmptyString) = b.
Proof.
  induction b as [|x b IH]; [done|].
  rewrite append_cons. cbn [drop_last]. rewrite IH. by destruct b.
Qed.

(** X9: [MavenDownloader.__init__] strips one trailing slash of the base
    URL and no more: a base written with a slash at its end is stored
    without it, and a base that does not end with a slash is stored as it
    is. *)
Theorem MavenDownloader_init_base b username password :
  base (MavenDownloader_init (b +:+ "/") username password) = b /\
  (endswith b "/" = false -> base (MavenDownloader_init b username password) = b).
Proof.
  unfold MavenDownloader_init. split.
  - assert (endswith (b +:+ "/") "/" = true) as -> by (apply endswith_spec; by exists b).
    cbn [base]. apply drop_last_snoc.
  - by intros ->.
Qed.

(** * Further properties of [main]'s coordinate *)

Lemma Artifact_str_Ok (self : Artifact) e :
  extension self = Some e -> exists s, Artifact_str self = Ok s.
Proof.
  destruct self as [g a v c ext]. cbn [extension]. intros ->.
  unfold Artifact_str. cbn [extension classifier version group_id artifact_id].
  destruct (negb _ || truthy c), (truthy c) eqn:Hc, (truthy v) eqn:Hv;
    destruct c as [c|]; try done; destruct v as [v|]; try done; cbn [app];
    first [ by eexists; apply (join_items_Some ":" [g; a; e; c; v])
          | by eexists; apply (join_items_Some ":" [g; a; e; c])
          | by eexists; apply (join_items_Some ":" [g; a; e; v])
          | by eexists; apply (join_items_Some ":" [g; a; e])
          | by eexists; apply (join_items_Some ":" [g; a; c; v])
          | by eexists; apply (join_items_Some ":" [g; a; c])
          | by eexists; apply (join_items_Some ":" [g; a; v])
          | by eexists; apply (join_items_Some ":" [g; a]) ].
Qed.

Lemma py_or_truthy_r x y : truthy y = true -> truthy (py_or x y) = true.
Proof. unfold py_or. by destruct (truthy x) eqn:Hx. Qed.

Lemma truthy_is_Some x : truthy x = true -> exists s, x = Some s.
Proof. destruct x; [by eexists | done]. Qed.

Lemma Artifact_init_Ok_inv render_field g a v c t x :
  Artifact_init render_field g a v c t = Ok x ->
  group_id x ≠ EmptyString /\ artifact_id x ≠ EmptyString /\
  version x = v /\ classifier x = c /\ extension x = t.
Proof.
  unfold Artifact_init.
  destruct (truthy g) eqn:Hg, (truthy a) eqn:Ha; cbn [negb orb];
    try (by intros H; apply raise_ArtifactError_not_Ok in H).
  intros [= <-]. cbn [group_id artifact_id version classifier extension].
  destruct g as [g|], a as [a|]; try done.
  by apply truthy_Some_nonempty in Hg, Ha.
Qed.

(** X10: every coordinate [main] builds has a non-empty group and artifact;
    and when the [extension] option is not empty (its default is ["jar"]),
    the coordinate has an extension, so that its serialization and its file
    name exist: [__str__] and [filename] do not raise on it. *)
Theorem main_artifact_invariant render_field (p : Params) c :
  main_artifact render_field p = Ok c ->
  group_id c ≠ EmptyString /\ artifact_id c ≠ EmptyString /\
  (truthy (p_extension p) = true ->
     truthy (extension c) = true /\
     (exists s, Artifact_str c = Ok s) /\ (exists f, filename c = Ok f)).
Proof.
  unfold main_artifact. intros Hc.
  assert (group_id c ≠ EmptyString /\ artifact_id c ≠ EmptyString /\
          (truthy (p_extension p) = true -> truthy (extension c) = true))
    as (Hg & Ha & He).
  { destruct (truthy (p_name p)).
    - destruct (parse render_field _) as [x|] eqn:Hp; [|done].
      injection Hc as <-. cbn [group_id artifact_id extension].
      unfold parse in Hp. destruct (length _ <? 2);
        [by apply raise_ArtifactError_not_Ok in Hp|].
      apply Artifact_init_Ok_inv in Hp as (Hg & Ha & _).
      repeat split; [done..|]. apply py_or_truthy_r.
    - apply Artifact_init_Ok_inv in Hc as (Hg & Ha & _ & _ & ->). done. }
  split; [done|]. split; [done|]. intros Hext. specialize (He Hext).
  split; [done|]. apply truthy_is_Some in He as [e He]. split.
  - by apply Artifact_str_Ok with e.
  - unfold filename. rewrite He. by eexists.
Qed.

Lemma main_artifact_invariant_witness :
  truthy (extension (mkArtifact "g" "a" (Some "1.0") None (Some "jar"))) = true /\
  (exists s, Artifact_str (mkArtifact "g" "a" (Some "1.0") None (Some "jar")) = Ok s) /\
  (exists f, filename (mkArtifact "g" "a" (Some "1.0") None (Some "jar")) = Ok f).
Proof.
  apply (main_artifact_invariant render_keyword (params_of_name "g:a:1.0")
           (mkArtifact "g" "a" (Some "1.0") None (Some "jar"))); reflexivity.
Defined.

(** X11: the fields given in [name] win over the options, and the options
    fill in what [name] leaves out.  With a two-segment name the version,
    classifier and extension are the options'; with a five-segment name
    whose segments are not empty every option is ignored. *)
Theorem main_artifact_name_precedence render_field (p : Params) name g a :
  p_name p = Some name -> g ≠ EmptyString -> a ≠ EmptyString ->
  (split ":" name = [g; a] ->
     main_artifact render_field p
     = Ok (mkArtifact g a (p_version p) (p_classifier p) (p_extension p))) /\
  (forall t c v, split ":" name = [g; a; t; c; v] ->
     t ≠ EmptyString -> c ≠ EmptyString -> v ≠ EmptyString ->
     main_artifact render_field p = Ok (mkArtifact g a (Some v) (Some c) (Some t))).
Proof.
  intros Hname Hg Ha. unfold main_artifact. rewrite Hname.
  cbn [default from_option id].
  assert (forall rest, split ":" name = g :: a :: rest -> truthy (Some name) = true)
    as Hn.
  { intros rest Hs. destruct name; [|done]. cbn in Hs. congruence. }
  split.
  - intros Hs. rewrite (Hn _ Hs), (parse_segments _ _ _ _ _ Hs Hg Ha). reflexivity.
  - intros t c v Hs Ht Hc Hv.
    rewrite (Hn _ Hs), (parse_segments _ _ _ _ _ Hs Hg Ha).
    destruct t, c, v; done.
Qed.

Lemma main_artifact_name_precedence_witness :
  main_artifact render_keyword
    (mkParams (Some "g:a") None None (Some "2.0") None (Some "jar"))
  = Ok (mkArtifact "g" "a" (Some "2.0") None (Some "jar")) /\
  main_artifact render_keyword
    (mkParams (Some "g:a:war:sources:1.0") None None (Some "2.0") (Some "x") (Some "jar"))
  = Ok (mkArtifact "g" "a" (Some "1.0") (Some "sources") (Some "war")).
Proof.
  split.
  - apply (main_artifact_name_precedence render_keyword
             (mkParams (Some "g:a") None None (Some "2.0") None (Some "jar"))
             "g:a" "g" "a"); try reflexivity; discriminate.
  - apply (main_artifact_name_precedence render_keyword
             (mkParams (Some "g:a:war:sources:1.0") None None (Some "2.0") (Some "x")
                (Some "jar"))
             "g:a:war:sources:1.0" "g" "a"); try reflexivity; discriminate.
Defined.

(** * Further properties of the downloader *)

Lemma sends_only_lift P {A} (x : result A) : sends_only P (lift x).
Proof. intros w r w' [= <- <-]. exists []. by rewrite app_nil_r. Qed.

Lemma sends_only_ret P {A} (a : A) : sends_only P (mret a).
Proof. intros w r w' [= <- <-]. exists []. by rewrite app_nil_r. Qed.

Lemma sends_only_get_files P : sends_only P get_files.
Proof. intros w r w' [= <- <-]. exists []. by rewrite app_nil_r. Qed.

Lemma sends_only_put_file P p n : sends_only P (put_file p n).
Proof. intros w r w' [= <- <-]. exists []. by rewrite app_nil_r. Qed.

Lemma sends_only_send (P : Request -> Prop) req : P req -> sends_only P (send req).
Proof. intros HP w r w' [= <- <-]. exists [req]. split; [done|]. by constructor. Qed.

Lemma sends_only_bind P {A B} (m : M A) (f : A -> M B) :
  sends_only P m -> (forall a, sends_only P (f a)) -> sends_only P (m ≫= f).
Proof.
  intros Hm Hf w r w' [(a & w1 & H1 & H2) | (e & H1 & _)]%M_bind_inv.
  - destruct (Hm _ _ _ H1) as (n1 & Hn1 & HP1).
    destruct (Hf _ _ _ _ H2) as (n2 & Hn2 & HP2).
    exists (n1 ++ n2). rewrite Hn2, Hn1, app_assoc. split; [done|]. by apply Forall_app.
  - by apply (Hm _ _ _ H1).
Qed.

Lemma sends_only_weaken (P Q : Request -> Prop) {A} (m : M A) :
  (forall q, P q -> Q q) -> sends_only P m -> sends_only Q m.
Proof.
  intros HPQ Hm w r w' H. destruct (Hm _ _ _ H) as (new & -> & HP).
  exists new. split; [done|]. by eapply Forall_impl.
Qed.

Create HintDb sends.
#[local] Hint Resolve sends_only_lift sends_only_ret sends_only_get_files
  sends_only_put_file : sends.

Ltac sends_only :=
  repeat first
    [ progress eauto with sends
    | apply sends_only_lift
    | apply sends_only_bind; [|intros ?]
    | match goal with
      | |- sends_only _ (if ?b then _ else _) => destruct b
      | |- sends_only _ (match ?x with _ => _ end) => destruct x
      end ].

Lemma sends_only_open_w P p : sends_only P (open_w p).
Proof. unfold open_w, raise. sends_only. Qed.

Lemma sends_only_write P p data : sends_only P (write p data).
Proof. unfold write. sends_only. Qed.

Section DownloaderRequests.
Variable render_field : string -> option Artifact -> result string.
Variable b64encode : string -> string.
Variable md5_hexdigest : string -> string.
Variable ET_parse : string -> option Element.
Variable urlopen : Request -> Cause + Response.
Variable self : MavenDownloader.

Lemma sends_only_request (P : Request -> Prop) {A} url failmsg (f : Response -> result A) :
  P (request_for b64encode self url) ->
  sends_only P (_request b64encode urlopen self url failmsg f).
Proof.
  intros HP. unfold _request, raise.
  apply sends_only_bind; [by apply sends_only_send|]. intros _. sends_only.
Qed.

Lemma own_request_for url : own_request b64encode self (request_for b64encode self url).
Proof. reflexivity. Qed.

Lemma sends_only_own_find_latest artifact :
  sends_only (own_request b64encode self)
    (_find_latest_version_available render_field b64encode ET_parse urlopen self artifact).
Proof.
  unfold _find_latest_version_available, raise.
  pose proof (fun u m f => @sends_only_request (own_request b64encode self) Element u m f
                             (own_request_for u)).
  sends_only.
Qed.

Lemma sends_only_own_find_uri artifact :
  sends_only (own_request b64encode self)
    (find_uri_for_artifact render_field b64encode ET_parse urlopen self artifact).
Proof.
  unfold find_uri_for_artifact.
  pose proof (fun u m f => @sends_only_request (own_request b64encode self) Element u m f
                             (own_request_for u)).
  sends_only.
Qed.

Lemma sends_only_is_same_md5 (P : Request -> Prop) file remote_md5 :
  P (request_for b64encode self remote_md5) ->
  sends_only P (_is_same_md5 b64encode md5_hexdigest urlopen self file remote_md5).
Proof.
  intros HP. unfold _is_same_md5, _local_md5, raise.
  pose proof (fun m f => @sends_only_request P string remote_md5 m f HP).
  sends_only.
Qed.

(** What [download] sends after the resolution: the request for the
    checksum and the request for the artifact. *)
Lemma sends_only_transfer (P : Request -> Prop) (target : string)
    (resolved : Artifact) (u n : string) (check_mode : bool) :
  P (request_for b64encode self (u +:+ ".md5")) ->
  P (request_for b64encode self u) ->
  sends_only P
    (let info (changed : bool) := mkInfo changed u target n resolved in
     same ← _is_same_md5 b64encode md5_hexdigest urlopen self target (u +:+ ".md5");
     if negb same then
       response ← _request b64encode urlopen self u
                    ("Failed to download artifact " +:+ n) Ok;
       if Response_truthy response then
         open_w target;;
         (if check_mode then
            _ ← lift (read response); mret tt
          else
            data ← lift (read response); write target data);;
         mret (info true)
       else mret (info false)
     else mret (info false) : M Info).
Proof.
  intros Hmd5 Hu. cbv zeta.
  pose proof (sends_only_is_same_md5 P target _ Hmd5).
  pose proof (fun m f => @sends_only_request P Response u m f Hu).
  pose proof (sends_only_open_w P). pose proof (sends_only_write P).
  sends_only.
Qed.

Lemma sends_only_own_download artifact dest check_mode :
  sends_only (own_request b64encode self)
    (download render_field b64encode md5_hexdigest ET_parse urlopen self
       artifact dest check_mode).
Proof.
  unfold download. apply sends_only_bind.
  - unfold download_resolve, raise.
    pose proof sends_only_own_find_latest. pose proof sends_only_own_find_uri.
    sends_only.
  - intros [[[target resolved] u] n].
    apply sends_only_transfer; apply own_request_for.
Qed.

(** X12: [download] never removes a request from those sent, and every
    request it sends carries the [User-Agent] header of the downloader,
    followed by a Basic [Authorization] header exactly when both the user
    name and the password are non-empty; no other header is sent. *)
Theorem download_request_headers artifact dest check_mode w r w' :
  download render_field b64encode md5_hexdigest ET_parse urlopen self
    artifact dest check_mode w = (r, w') ->
  exists new,
    requests w' = requests w ++ new /\
    Forall (fun q =>
              req_headers q =
                ("User-Agent", user_agent self) ::
                (if truthy (username self) && truthy (password self) then
                   [("Authorization",
                     "Basic " +:+ b64encode (default EmptyString (username self) +:+ ":"
                                            +:+ default EmptyString (password self)))]
                 else [])) new.
Proof.
  intros Hd. destruct (sends_only_own_download _ _ _ _ _ _ Hd) as (new & Hnew & Hown).
  exists new. split; [done|]. eapply Forall_impl; [exact Hown|].
  intros q ->. unfold request_for. cbn [req_headers].
  by destruct (truthy (username self) && truthy (password self)).
Qed.
End DownloaderRequests.

Lemma download_request_headers_witness :
  let self := MavenDownloader_init "http://repo/" (Some "flynn") (Some "top-secret") in
  let out := download render_keyword example_b64 example_md5 (fun _ => None)
               (example_repo (Some "new")) self example_artifact "/tmp" false
               (mkWorld example_files []) in
  exists new,
    requests out.2 = [] ++ new /\
    Forall (fun q =>
              req_headers q =
                [("User-Agent", "Ansible");
                 ("Authorization", "Basic b64:flynn:top-secret")]) new.
Proof.
  cbv zeta.
  eapply (download_request_headers render_keyword example_b64 example_md5 (fun _ => None)
           (example_repo (Some "new"))
           (MavenDownloader_init "http://repo/" (Some "flynn") (Some "top-secret"))
           example_artifact "/tmp" false (mkWorld example_files [])).
  vm_compute. reflexivity.
Defined.

Section DownloaderOutcomes.
Variable render_field : string -> option Artifact -> result string.
Variable b64encode : string -> string.
Variable md5_hexdigest : string -> string.
Variable ET_parse : string -> option Element.
Variable urlopen : Request -> Cause + Response.
Variable self : MavenDownloader.

(** The destination file the resolution settles on. *)
Lemma download_resolve_target artifact dest w target resolved u n w1 :
  download_resolve render_field b64encode ET_parse urlopen self artifact dest w
  = (Ok (target, resolved, u, n), w1) ->
  (path_isdir (files w) dest = true /\
   exists f, filename artifact = Ok f /\ target = path_join dest f) \/
  (path_isdir (files w) dest = false /\
   path_isdir (files w) (path_dirname dest) = true /\ target = dest).
Proof.
  unfold download_resolve. rewrite get_files_bind. intros H.
  apply M_bind_inv in H as [(t & w2 & Ht & H) | (e & _ & [=])].
  apply M_bind_inv in H as [(a' & w3 & _ & H) | (e & _ & [=])].
  apply M_bind_inv in H as [(u' & w4 & _ & H) | (e & _ & [=])].
  apply M_bind_inv in H as [(n' & w5 & _ & H) | (e & _ & [=])].
  injection H as <- _ _ _ _.
  destruct (path_isdir (files w) dest).
  - left. split; [done|].
    apply M_bind_inv in Ht as [(f & w6 & Hf & Ht) | (e & _ & [=])].
    injection Ht as <- _. injection Hf as Hf _. by exists f.
  - right. destruct (path_isdir (files w) (path_dirname dest)); [|done].
    by injection Ht as <- _.
Qed.

(** X13: whatever its outcome, [download] changes at most one entry of the
    file system: the destination file, which is [dest] itself or, when
    [dest] is a directory, the artifact's file name joined to it.  It
    creates no directory and removes nothing. *)
Theorem download_touches_one_file artifact dest check_mode w r w' :
  download render_field b64encode md5_hexdigest ET_parse urlopen self
    artifact dest check_mode w = (r, w') ->
  files w' = files w \/
  exists target data,
    files w' = <[target := File data]> (files w) /\
    (target = dest \/ exists f, filename artifact = Ok f /\ target = path_join dest f).
Proof.
  unfold download. intros Hd.
  apply M_bind_inv in Hd as [(resolved & w1 & Hres & Hd) | (e' & Hres & _)];
    [|left; by apply (keeps_files_download_resolve _ _ _ _ _ _ _ _ _ _ Hres)].
  rewrite <- (keeps_files_download_resolve _ _ _ _ _ _ _ _ _ _ Hres).
  destruct resolved as [[[target resolved] u] n].
  assert (target = dest \/ exists f, filename artifact = Ok f /\ target = path_join dest f)
    as Htarget.
  { apply download_resolve_target in Hres as [(_ & f & Hf & ->) | (_ & _ & ->)]; eauto. }
  apply M_bind_inv in Hd as [(same & w2 & Hsame & Hd) | (e' & Hsame & _)];
    [|left; by apply (keeps_files_is_same_md5 _ _ _ _ _ _ _ _ _ Hsame)].
  rewrite <- (keeps_files_is_same_md5 _ _ _ _ _ _ _ _ _ Hsame).
  destruct same; cbn [negb] in Hd; [left; by injection Hd as _ <-|].
  apply M_bind_inv in Hd as [(response & w3 & Hreq & Hd) | (e' & Hreq & _)];
    [|left; by apply (keeps_files_request _ _ _ _ _ _ _ _ _ Hreq)].
  rewrite <- (keeps_files_request _ _ _ _ _ _ _ _ _ Hreq).
  cbn [Response_truthy] in Hd.
  apply M_bind_inv in Hd as [([] & w4 & Hopen & Hd) | (e' & Hopen & _)].
  - apply open_w_inv in Hopen as [[[=] _] | [_ ->]].
    right. exists target.
    apply M_bind_inv in Hd as [([] & w5 & Htrans & Hd) | (e' & Htrans & _)].
    + injection Hd as _ <-.
      unfold mbind, M_bind, mret, M_ret, lift, write, put_file in Htrans.
      destruct check_mode, (read response) as [data|e''];
        simplify_eq; cbn [files]; rewrite ?insert_insert_eq; eauto.
    + unfold mbind, M_bind, mret, M_ret, lift, write, put_file in Htrans.
      destruct check_mode, (read response) as [data|e''];
        simplify_eq; cbn [files]; eauto.
  - left. by apply open_w_inv in Hopen as [[_ ->] | [[=] _]].
Qed.
(** Without a file at the destination the checksums are not compared and
    nothing is requested. *)
Lemma is_same_md5_absent file remote_md5 w :
  files w !! file = None ->
  _is_same_md5 b64encode md5_hexdigest urlopen self file remote_md5 w = (Ok false, w).
Proof.
  intros Hfile. unfold _is_same_md5. rewrite get_files_bind. unfold path_exists.
  rewrite Hfile. rewrite bool_decide_eq_false_2 by (by intros [? [=]]). done.
Qed.

(** Outside check mode a transfer writes the body of the response to the
    destination. *)
Lemma download_transfer_write artifact dest w target resolved u n w1 w2 response data :
  download_resolve render_field b64encode ET_parse urlopen self artifact dest w
  = (Ok (target, resolved, u, n), w1) ->
  _is_same_md5 b64encode md5_hexdigest urlopen self target (u +:+ ".md5") w1
  = (Ok false, w2) ->
  urlopen (request_for b64encode self u) = inr response ->
  read response = Ok data ->
  path_isdir (files w) target = false ->
  path_isdir (files w) (path_dirname target) = true ->
  download render_field b64encode md5_hexdigest ET_parse urlopen self
    artifact dest false w =
    (Ok (mkInfo true u target n resolved),
     mkWorld (<[target := File data]> (files w))
       (requests w2 ++ [request_for b64encode self u])).
Proof.
  intros Hres Hsame Hopen Hread Htarget Hparent.
  pose proof (keeps_files_download_resolve _ _ _ _ _ _ _ _ _ _ Hres) as Hfs1.
  pose proof (keeps_files_is_same_md5 _ _ _ _ _ _ _ _ _ Hsame) as Hfs2.
  unfold download. rewrite (M_bind_Ok _ _ _ _ _ Hres).
  rewrite (M_bind_Ok _ _ _ _ _ Hsame). cbn [negb].
  rewrite (M_bind_Ok _ _ _ _ _ (request_Ok _ _ _ _ _ Ok _ _ Hopen)).
  cbn [Response_truthy].
  erewrite (M_bind_Ok (open_w target)); last first.
  { apply open_w_Ok; cbn [files]; rewrite Hfs2, Hfs1; done. }
  unfold mbind at 1, M_bind at 1, mbind, M_bind, lift. rewrite Hread.
  unfold write, put_file, mret, M_ret. cbn [files requests].
  by rewrite insert_insert_eq, Hfs2, Hfs1.
Qed.

Lemma path_isdir_not_dir (fs : gmap string Node) p :
  fs !! p ≠ Some Dir -> path_isdir fs p = false.
Proof. intros H. unfold path_isdir. by apply bool_decide_eq_false_2. Qed.

(** X14: when there is no file at the destination, [download] requests no
    checksum: after the resolution it sends the request for the artifact
    only, creates the file with the body of the response, and reports
    [changed = true]. *)
Theorem download_creates_missing_file artifact dest w target resolved u n w1 response data :
  download_resolve render_field b64encode ET_parse urlopen self artifact dest w
  = (Ok (target, resolved, u, n), w1) ->
  files w !! target = None ->
  path_isdir (files w) (path_dirname target) = true ->
  urlopen (request_for b64encode self u) = inr response ->
  read response = Ok data ->
  download render_field b64encode md5_hexdigest ET_parse urlopen self
    artifact dest false w =
    (Ok (mkInfo true u target n resolved),
     mkWorld (<[target := File data]> (files w))
       (requests w1 ++ [request_for b64encode self u])).
Proof.
  intros Hres Hfile Hparent Hopen Hread.
  pose proof (keeps_files_download_resolve _ _ _ _ _ _ _ _ _ _ Hres) as Hfs1.
  apply (download_transfer_write _ _ _ _ _ _ _ w1 w1 response); try done.
  - apply is_same_md5_absent. by rewrite Hfs1.
  - apply path_isdir_not_dir. by rewrite Hfile.
Qed.

(** X15: when the file at the destination has another digest than the one
    the repository serves at [{url}.md5], [download] requests the checksum
    and then the artifact, replaces the content of the file by the body of
    the response, and reports [changed = true]. *)
Theorem download_replaces_stale_file
    artifact dest w target resolved u n w1 old sidecar digest response data :
  download_resolve render_field b64encode ET_parse urlopen self artifact dest w
  = (Ok (target, resolved, u, n), w1) ->
  files w !! target = Some (File old) ->
  path_isdir (files w) (path_dirname target) = true ->
  urlopen (request_for b64encode self (u +:+ ".md5")) = inr sidecar ->
  read sidecar = Ok digest ->
  digest ≠ md5_hexdigest old ->
  urlopen (request_for b64encode self u) = inr response ->
  read response = Ok data ->
  download render_field b64encode md5_hexdigest ET_parse urlopen self
    artifact dest false w =
    (Ok (mkInfo true u target n resolved),
     mkWorld (<[target := File data]> (files w))
       (requests w1 ++ [request_for b64encode self (u +:+ ".md5");
                        request_for b64encode self u])).
Proof.
  intros Hres Hfile Hparent Hside Hdigest Hne Hopen Hread.
  pose proof (keeps_files_download_resolve _ _ _ _ _ _ _ _ _ _ Hres) as Hfs1.
  rewrite <- Hfs1 in Hfile.
  pose proof (is_same_md5_file b64encode md5_hexdigest urlopen self _ _ _ _ _ _ Hfile Hside Hdigest) as Hsame.
  rewrite bool_decide_eq_false_2 in Hsame by congruence.
  rewrite (download_transfer_write _ _ _ _ _ _ _ _ _ _ _ Hres Hsame Hopen Hread);
    [ cbn [requests]; by rewrite <- app_assoc | | done ].
  apply path_isdir_not_dir. by rewrite <- Hfs1, Hfile.
Qed.

(** X16: the checksums are compared byte for byte: a sidecar that holds
    the digest of the local file followed by anything else (a line end, a
    file name) does not match, so that such a file counts as changed. *)
Theorem is_same_md5_no_trimming file remote_md5 w content response suffix :
  files w !! file = Some (File content) ->
  urlopen (request_for b64encode self remote_md5) = inr response ->
  read response = Ok (md5_hexdigest content +:+ suffix) ->
  suffix ≠ EmptyString ->
  _is_same_md5 b64encode md5_hexdigest urlopen self file remote_md5 w =
    (Ok false, mkWorld (files w) (requests w ++ [request_for b64encode self remote_md5])).
Proof.
  intros Hfile Hopen Hread Hsuffix.
  rewrite (is_same_md5_file b64encode md5_hexdigest urlopen self _ _ _ _ _ _ Hfile Hopen Hread).
  rewrite bool_decide_eq_false_2; [done|].
  intros H. apply Hsuffix.
  rewrite <- (append_empty_r (md5_hexdigest content)) in H at 1.
  by apply (inj (String.append _)) in H.
Qed.

(** X17: a file at the destination cannot be checked without its checksum:
    when the request for [{url}.md5] fails, [download] aborts with the
    [DownloaderError] of that request, the artifact is not requested and
    the file system is unchanged. *)
Theorem download_checksum_unavailable
    artifact dest check_mode w target resolved u n w1 content cause :
  download_resolve render_field b64encode ET_parse urlopen self artifact dest w
  = (Ok (target, resolved, u, n), w1) ->
  files w !! target = Some (File content) ->
  urlopen (request_for b64encode self (u +:+ ".md5")) = inl cause ->
  download render_field b64encode md5_hexdigest ET_parse urlopen self
    artifact dest check_mode w =
    (Raise (DownloaderError (u +:+ ".md5") "Failed to download MD5" cause),
     mkWorld (files w) (requests w1 ++ [request_for b64encode self (u +:+ ".md5")])).
Proof.
  intros Hres Hfile Hopen.
  pose proof (keeps_files_download_resolve _ _ _ _ _ _ _ _ _ _ Hres) as Hfs1.
  unfold download. rewrite (M_bind_Ok _ _ _ _ _ Hres).
  rewrite M_bind_eq. unfold _is_same_md5. rewrite get_files_bind.
  unfold path_exists. rewrite Hfs1, Hfile.
  rewrite bool_decide_eq_true_2 by eauto. cbn [negb].
  rewrite M_bind_eq, local_md5_eq, Hfs1, Hfile.
  rewrite M_bind_eq. unfold _request. rewrite M_bind_eq. unfold send.
  by rewrite Hopen, Hfs1.
Qed.

(** X18: a dry run sends the requests of the real run; whenever the real
    run returns a result the dry run returns the same result, and whenever
    the dry run raises the real run raises the same exception. *)
Theorem download_check_mode_report artifact dest w :
  requests (download render_field b64encode md5_hexdigest ET_parse urlopen self
              artifact dest true w).2
  = requests (download render_field b64encode md5_hexdigest ET_parse urlopen self
                artifact dest false w).2 /\
  (forall info,
     (download render_field b64encode md5_hexdigest ET_parse urlopen self
        artifact dest false w).1 = Ok info ->
     (download render_field b64encode md5_hexdigest ET_parse urlopen self
        artifact dest true w).1 = Ok info) /\
  (forall e,
     (download render_field b64encode md5_hexdigest ET_parse urlopen self
        artifact dest true w).1 = Raise e ->
     (download render_field b64encode md5_hexdigest ET_parse urlopen self
        artifact dest false w).1 = Raise e).
Proof.
  unfold download. rewrite !(M_bind_eq (download_resolve _ _ _ _ _ _ _)).
  destruct (download_resolve _ _ _ _ _ _ _ w) as [[[[[target resolved] u] n]|e] w1];
    [|done].
  rewrite !(M_bind_eq (_is_same_md5 _ _ _ _ _ _)).
  destruct (_is_same_md5 _ _ _ _ _ _ w1) as [[[]|e] w2]; try done. cbn [negb].
  rewrite !(M_bind_eq (_request _ _ _ _ _ _)).
  destruct (_request _ _ _ _ _ _ w2) as [[response|e] w3]; [|done].
  cbn [Response_truthy]. rewrite !(M_bind_eq (open_w target)).
  destruct (open_w target w3) as [[[]|e] w4]; [|done].
  unfold mbind, M_bind, mret, M_ret, lift, write, put_file.
  by destruct (read response).
Qed.

End DownloaderOutcomes.

Section ResolutionOutcomes.
Variable render_field : string -> option Artifact -> result string.
Variable b64encode : string -> string.
Variable md5_hexdigest : string -> string.
Variable ET_parse : string -> option Element.
Variable urlopen : Request -> Cause + Response.
Variable self : MavenDownloader.

(** The resolution of a release coordinate that has its version sends
    nothing and leaves the coordinate as it is. *)
Lemma download_resolve_release artifact dest w v e :
  version artifact = Some v -> v ≠ EmptyString ->
  endswith v "SNAPSHOT" = false ->
  extension artifact = Some e ->
  exists x,
    download_resolve render_field b64encode ET_parse urlopen self artifact dest w = (x, w) /\
    forall target resolved u n,
      x = Ok (target, resolved, u, n) ->
      resolved = artifact /\
      u = spec_url (base self) (group_id artifact) (artifact_id artifact) v v
            (classifier artifact) e.
Proof.
  intros Hv Hne Hsnap He. apply truthy_Some_nonempty in Hne.
  pose proof (uri_for_release render_field self artifact v e None Hv He Hsnap) as Huri.
  assert (find_uri_for_artifact render_field b64encode ET_parse urlopen self artifact
          = lift (Ok (spec_url (base self) (group_id artifact) (artifact_id artifact) v v
                        (classifier artifact) e))) as Hfind.
  { unfold find_uri_for_artifact, is_snapshot. rewrite Hv, <- Huri.
    unfold mbind at 1, M_bind at 1, lift at 1. by rewrite Hsnap. }
  unfold download_resolve.
  rewrite get_files_bind, Hv, Hne. cbn [negb].
  unfold mbind, M_bind, mret, M_ret, raise.
  destruct (path_isdir (files w) dest); [|destruct (negb _)];
    unfold lift at 1; try (by eexists).
  - destruct (filename artifact); [|by eexists].
    rewrite Hfind. unfold lift.
    destruct (Artifact_str artifact); eexists; (split; [done|]); [|done].
    by intros ? ? ? ? [= _ <- <- _].
  - rewrite Hfind. unfold lift.
    destruct (Artifact_str artifact); eexists; (split; [done|]); [|done].
    by intros ? ? ? ? [= _ <- <- _].
Qed.

(** X19: for a release coordinate that has its version, [download] contacts
    nothing but the URL of the artifact and the URL of its checksum: every
    request it sends is the request for one of the two, and no metadata is
    requested. *)
Theorem download_release_requests artifact dest check_mode w r w' v e :
  version artifact = Some v -> v ≠ EmptyString ->
  endswith v "SNAPSHOT" = false ->
  extension artifact = Some e ->
  download render_field b64encode md5_hexdigest ET_parse urlopen self
    artifact dest check_mode w = (r, w') ->
  exists new,
    requests w' = requests w ++ new /\
    Forall (fun q =>
              let u := spec_url (base self) (group_id artifact) (artifact_id artifact)
                         v v (classifier artifact) e in
              q = request_for b64encode self (u +:+ ".md5") \/
              q = request_for b64encode self u) new.
Proof.
  intros Hv Hne Hsnap He Hd.
  destruct (download_resolve_release artifact dest w v e Hv Hne Hsnap He)
    as (x & Hres & Hx).
  unfold download in Hd. rewrite M_bind_eq, Hres in Hd.
  destruct x as [[[[target resolved] u] n]|err].
  - destruct (Hx _ _ _ _ eq_refl) as [-> ->].
    eapply sends_only_transfer; [| |exact Hd]; cbv zeta; auto.
  - injection Hd as _ <-. exists []. by rewrite app_nil_r.
Qed.

(** X20: a coordinate without version is resolved to the last version the
    metadata lists: with a destination file in an existing directory and
    metadata whose last [version] element holds [v], a release, the
    resolution requests
    [{base}/{group-as-path}/{artifact}/maven-metadata.xml] and nothing else,
    and gives the coordinate with version [v] and the URL built from [v]. *)
Theorem download_resolve_latest artifact dest w response data root el v e :
  truthy (version artifact) = false ->
  path_isdir (files w) dest = false ->
  path_isdir (files w) (path_dirname dest) = true ->
  urlopen (request_for b64encode self
             (base self +:+ "/" +:+ replace "." "/" (group_id artifact) +:+ "/"
              +:+ artifact_id artifact +:+ "/maven-metadata.xml")) = inr response ->
  read response = Ok data ->
  ET_parse data = Some root ->
  last (findall ["versioning"; "versions"; "version"] root) = Some el ->
  text el = Some v ->
  endswith v "SNAPSHOT" = false ->
  extension artifact = Some e ->
  let resolved := mkArtifact (group_id artifact) (artifact_id artifact) (Some v)
                    (classifier artifact) (Some e) in
  exists n,
    Artifact_str resolved = Ok n /\
    download_resolve render_field b64encode ET_parse urlopen self artifact dest w =
      (Ok (dest, resolved,
           spec_url (base self) (group_id artifact) (artifact_id artifact) v v
             (classifier artifact) e, n),
       mkWorld (files w)
         (requests w ++
          [request_for b64encode self
             (base self +:+ "/" +:+ replace "." "/" (group_id artifact) +:+ "/"
              +:+ artifact_id artifact +:+ "/maven-metadata.xml")])).
Proof.
  intros Hver Hdest Hparent Hopen Hread Hparse Hlast Htext Hsnap He resolved.
  destruct (Artifact_str_Ok resolved e eq_refl) as [n Hn].
  exists n. split; [done|].
  pose proof (find_latest_version_outcome render_field b64encode ET_parse urlopen self
                artifact w response data root Hopen Hread Hparse) as Hlatest.
  rewrite Hlast, Htext in Hlatest.
  unfold download_resolve. rewrite get_files_bind, Hdest, Hparent, Hver, He.
  cbn [negb]. unfold mbind at 1, M_bind at 1, mret at 1, M_ret at 1.
  rewrite (M_bind_eq (_ ≫= _)), (M_bind_eq (_find_latest_version_available _ _ _ _ _ _)).
  rewrite Hlatest. unfold mret at 1, M_ret at 1. fold resolved.
  unfold find_uri_for_artifact, is_snapshot. cbn [version resolved].
  unfold mbind, M_bind, mret, M_ret, lift. rewrite Hsnap.
  rewrite (uri_for_release render_field self resolved v e None eq_refl eq_refl Hsnap).
  by rewrite Hn.
Qed.

(** X21: for a coordinate without a version and a destination that
    [download] accepts (a directory, the artifact then having an extension
    for its file name, or a path whose parent is a directory), when the
    last [version] element of the metadata is empty the version resolved is
    [None], and [download] aborts with the [AttributeError] of
    [is_snapshot] right after the metadata request. *)
Theorem download_empty_version_element artifact dest check_mode w response data root el :
  truthy (version artifact) = false ->
  (path_isdir (files w) dest = true -> extension artifact <> None) ->
  (path_isdir (files w) dest = false ->
   path_isdir (files w) (path_dirname dest) = true) ->
  urlopen (request_for b64encode self
             (base self +:+ "/" +:+ replace "." "/" (group_id artifact) +:+ "/"
              +:+ artifact_id artifact +:+ "/maven-metadata.xml")) = inr response ->
  read response = Ok data ->
  ET_parse data = Some root ->
  last (findall ["versioning"; "versions"; "version"] root) = Some el ->
  text el = None ->
  download render_field b64encode md5_hexdigest ET_parse urlopen self
    artifact dest check_mode w =
    (Raise (Builtin AttributeError),
     mkWorld (files w)
       (requests w ++
        [request_for b64encode self
           (base self +:+ "/" +:+ replace "." "/" (group_id artifact) +:+ "/"
            +:+ artifact_id artifact +:+ "/maven-metadata.xml")])).
Proof.
  intros Hver Hdir Hpath Hopen Hread Hparse Hlast Htext.
  pose proof (find_latest_version_outcome render_field b64encode ET_parse urlopen self
                artifact w response data root Hopen Hread Hparse) as Hlatest.
  rewrite Hlast, Htext in Hlatest.
  unfold download, download_resolve. rewrite M_bind_eq, get_files_bind, Hver.
  destruct (path_isdir (files w) dest) eqn:Hdest.
  - destruct (extension artifact) as [ext|] eqn:Hext; [|by destruct Hdir].
    unfold filename. rewrite Hext.
    cbn [negb]. rewrite (M_bind_Ok (lift (Ok _) ≫= _) _ w _ w eq_refl). cbv beta.
    rewrite (M_bind_eq (_ ≫= _)), (M_bind_eq (_find_latest_version_available _ _ _ _ _ _)).
    rewrite Hlatest. unfold mret at 1, M_ret at 1.
    unfold find_uri_for_artifact, is_snapshot. cbn [version].
    reflexivity.
  - rewrite (Hpath eq_refl).
    cbn [negb]. unfold mbind at 1, M_bind at 1, mret at 1, M_ret at 1.
    rewrite (M_bind_eq (_ ≫= _)), (M_bind_eq (_find_latest_version_available _ _ _ _ _ _)).
    rewrite Hlatest. unfold mret at 1, M_ret at 1.
    unfold find_uri_for_artifact, is_snapshot. cbn [version].
    reflexivity.
Qed.

(** X22: a snapshot coordinate is resolved with one request, for
    [{base}/{group-as-path}/{artifact}/{version}/maven-metadata.xml]: a
    failure of that request is raised as a [DownloaderError], and otherwise
    the URI is the one [_find_matching_artifact] gives for the
    [snapshotVersion] elements of the document. *)
Theorem find_uri_for_snapshot artifact w v :
  version artifact = Some v -> endswith v "SNAPSHOT" = true ->
  let url := base self +:+ "/" +:+ replace "." "/" (group_id artifact) +:+ "/"
             +:+ artifact_id artifact +:+ "/" +:+ v +:+ "/maven-metadata.xml" in
  find_uri_for_artifact render_field b64encode ET_parse urlopen self artifact w =
    (match urlopen (request_for b64encode self url) with
     | inl cause =>
         Raise (DownloaderError url "Failed to download maven-metadata.xml" cause)
     | inr response =>
         root ← parse_response ET_parse response;
         _find_matching_artifact render_field self
           (findall ["versioning"; "snapshotVersions"; "snapshotVersion"] root) artifact
     end,
     mkWorld (files w) (requests w ++ [request_for b64encode self url])).
Proof.
  intros Hv Hsnap url.
  unfold find_uri_for_artifact, is_snapshot, path. rewrite Hv.
  unfold mbind at 1 2, M_bind at 1 2, lift at 1 2. rewrite Hsnap.
  rewrite !append_assoc. cbn [String.append]. fold url.
  rewrite M_bind_eq. unfold _request. rewrite M_bind_eq. unfold send.
  destruct (urlopen (request_for b64encode self url)) as [cause|response]; [done|].
  unfold lift. destruct (parse_response ET_parse response); done.
Qed.
End ResolutionOutcomes.

(** ** The further properties on concrete runs *)

Lemma download_touches_one_file_witness :
  let w := mkWorld example_files [] in
  let out := download render_keyword example_b64 example_md5 (fun _ => None)
               (example_repo (Some "new")) example_downloader example_artifact
               "/tmp" false w in
  files out.2 = files w \/
  exists target data,
    files out.2 = <[target := File data]> (files w) /\
    (target = "/tmp" \/
     exists f, filename example_artifact = Ok f /\ target = path_join "/tmp" f).
Proof.
  cbv zeta.
  eapply (download_touches_one_file render_keyword example_b64 example_md5
            (fun _ => None) (example_repo (Some "new")) example_downloader
            example_artifact "/tmp" false (mkWorld example_files [])).
  vm_compute. reflexivity.
Defined.

Lemma download_creates_missing_file_witness :
  download render_keyword example_b64 example_md5 (fun _ => None)
    (example_repo (Some "new")) example_downloader example_artifact
    "/tmp" false (mkWorld (<["/tmp" := Dir]> ∅) [])
  = (Ok (mkInfo true example_url "/tmp/maven.jar" "org.apache.maven:maven:3.2.1"
           example_artifact),
     mkWorld (<["/tmp/maven.jar" := File "new"]> (<["/tmp" := Dir]> ∅))
       [mkRequest example_url [("User-Agent", "Ansible")]]).
Proof.
  etrans; [|shelve].
  apply (download_creates_missing_file render_keyword example_b64 example_md5
           (fun _ => None) (example_repo (Some "new")) example_downloader
           example_artifact "/tmp" (mkWorld (<["/tmp" := Dir]> ∅) [])
           "/tmp/maven.jar" example_artifact example_url "org.apache.maven:maven:3.2.1"
           (mkWorld (<["/tmp" := Dir]> ∅) []) (mkResponse (Some "new")) "new");
    vm_compute; reflexivity.
  Unshelve. vm_compute; reflexivity.
Defined.

Lemma download_replaces_stale_file_witness :
  download render_keyword example_b64 example_md5 (fun _ => None)
    (example_repo (Some "new")) example_downloader example_artifact
    "/tmp" false (mkWorld example_files [])
  = (Ok (mkInfo true example_url "/tmp/maven.jar" "org.apache.maven:maven:3.2.1"
           example_artifact),
     mkWorld (<["/tmp/maven.jar" := File "new"]> example_files)
       [mkRequest (example_url +:+ ".md5") [("User-Agent", "Ansible")];
        mkRequest example_url [("User-Agent", "Ansible")]]).
Proof.
  etrans; [|shelve].
  apply (download_replaces_stale_file render_keyword example_b64 example_md5
           (fun _ => None) (example_repo (Some "new")) example_downloader
           example_artifact "/tmp" (mkWorld example_files [])
           "/tmp/maven.jar" example_artifact example_url "org.apache.maven:maven:3.2.1"
           (mkWorld example_files []) "old" (mkResponse (Some (example_md5 "new")))
           (example_md5 "new") (mkResponse (Some "new")) "new");
    try (vm_compute; reflexivity). discriminate.
  Unshelve. vm_compute; reflexivity.
Defined.

Lemma is_same_md5_no_trimming_witness :
  _is_same_md5 example_b64 example_md5
    (fun _ => inr (mkResponse (Some "md5:old  maven.jar"))) example_downloader
    "/tmp/maven.jar" (example_url +:+ ".md5") (mkWorld example_files [])
  = (Ok false,
     mkWorld example_files [mkRequest (example_url +:+ ".md5") [("User-Agent", "Ansible")]]).
Proof.
  etrans; [|shelve].
  apply (is_same_md5_no_trimming example_b64 example_md5
           (fun _ => inr (mkResponse (Some "md5:old  maven.jar"))) example_downloader
           "/tmp/maven.jar" (example_url +:+ ".md5") (mkWorld example_files [])
           "old" (mkResponse (Some "md5:old  maven.jar")) "  maven.jar");
    try (vm_compute; reflexivity). discriminate.
  Unshelve. vm_compute; reflexivity.
Defined.

Lemma download_checksum_unavailable_witness :
  download render_keyword example_b64 example_md5 (fun _ => None)
    (fun _ => inl (HTTPError 404)) example_downloader example_artifact
    "/tmp" false (mkWorld example_files [])
  = (Raise (DownloaderError (example_url +:+ ".md5") "Failed to download MD5"
              (HTTPError 404)),
     mkWorld example_files
       [mkRequest (example_url +:+ ".md5") [("User-Agent", "Ansible")]]).
Proof.
  etrans; [|shelve].
  apply (download_checksum_unavailable render_keyword example_b64 example_md5
           (fun _ => None) (fun _ => inl (HTTPError 404)) example_downloader
           example_artifact "/tmp" false (mkWorld example_files [])
           "/tmp/maven.jar" example_artifact example_url "org.apache.maven:maven:3.2.1"
           (mkWorld example_files []) "old" (HTTPError 404));
    vm_compute; reflexivity.
  Unshelve. vm_compute; reflexivity.
Defined.

Lemma download_release_requests_witness :
  let out := download render_keyword example_b64 example_md5 (fun _ => None)
               (example_repo (Some "new")) example_downloader example_artifact
               "/tmp" false (mkWorld example_files []) in
  exists new,
    requests out.2 = [] ++ new /\
    Forall (fun q =>
              let u := spec_url (base example_downloader) "org.apache.maven" "maven"
                         "3.2.1" "3.2.1" None "jar" in
              q = request_for example_b64 example_downloader (u +:+ ".md5") \/
              q = request_for example_b64 example_downloader u) new.
Proof.
  cbv zeta.
  eapply (download_release_requests render_keyword example_b64 example_md5
            (fun _ => None) (example_repo (Some "new")) example_downloader
            example_artifact "/tmp" false (mkWorld example_files []));
    try (vm_compute; reflexivity). discriminate.
Defined.

Lemma download_resolve_latest_witness :
  exists n,
    Artifact_str (mkArtifact "g" "a" (Some "2.0") None (Some "jar")) = Ok n /\
    download_resolve render_keyword example_b64
      (fun _ => Some (versions_doc ["1.0"; "1.1"; "2.0"])) metadata_repo
      (MavenDownloader_init "http://repo" None None)
      (mkArtifact "g" "a" None None (Some "jar")) "/tmp/a.jar"
      (mkWorld example_files [])
    = (Ok ("/tmp/a.jar", mkArtifact "g" "a" (Some "2.0") None (Some "jar"),
           spec_url "http://repo" "g" "a" "2.0" "2.0" None "jar", n),
       mkWorld example_files
         [request_for example_b64 (MavenDownloader_init "http://repo" None None)
            "http://repo/g/a/maven-metadata.xml"]).
Proof.
  apply (download_resolve_latest render_keyword example_b64
           (fun _ => Some (versions_doc ["1.0"; "1.1"; "2.0"])) metadata_repo
           (MavenDownloader_init "http://repo" None None)
           (mkArtifact "g" "a" None None (Some "jar")) "/tmp/a.jar"
           (mkWorld example_files []) (mkResponse (Some "<metadata>")) "<metadata>"
           (versions_doc ["1.0"; "1.1"; "2.0"]) (Elem "version" (Some "2.0") [])
           "2.0" "jar"); vm_compute; reflexivity.
Defined.

Lemma download_check_mode_report_witness :
  (download render_keyword example_b64 example_md5 (fun _ => None)
     (example_repo (Some "new")) example_downloader example_artifact
     "/tmp" true (mkWorld example_files [])).1
  = Ok (mkInfo true example_url "/tmp/maven.jar" "org.apache.maven:maven:3.2.1"
          example_artifact).
Proof.
  apply (proj1 (proj2 (download_check_mode_report render_keyword example_b64
                         example_md5 (fun _ => None) (example_repo (Some "new"))
                         example_downloader example_artifact "/tmp"
                         (mkWorld example_files [])))).
  vm_compute; reflexivity.
Defined.

Lemma download_empty_version_element_witness :
  path_isdir example_files "/tmp" = true /\
  download render_keyword example_b64 example_md5
    (fun _ => Some (Elem "metadata" None
                      [Elem "versioning" None
                         [Elem "versions" None [Elem "version" None []]]]))
    metadata_repo (MavenDownloader_init "http://repo" None None)
    (mkArtifact "g" "a" None None (Some "jar")) "/tmp" false
    (mkWorld example_files [])
  = (Raise (Builtin AttributeError),
     mkWorld example_files
       [mkRequest "http://repo/g/a/maven-metadata.xml" [("User-Agent", "Ansible")]]).
Proof.
  split; [vm_compute; reflexivity|].
  etrans; [|shelve].
  apply (download_empty_version_element render_keyword example_b64 example_md5
           (fun _ => Some (Elem "metadata" None
                             [Elem "versioning" None
                                [Elem "versions" None [Elem "version" None []]]]))
           metadata_repo (MavenDownloader_init "http://repo" None None)
           (mkArtifact "g" "a" None None (Some "jar")) "/tmp" false
           (mkWorld example_files []) (mkResponse (Some "<metadata>")) "<metadata>"
           (Elem "metadata" None
              [Elem "versioning" None [Elem "versions" None [Elem "version" None []]]])
           (Elem "version" None []));
    [ reflexivity
    | intros _; discriminate
    | vm_compute; intros Hfile; discriminate Hfile
    | vm_compute; reflexivity
    | reflexivity
    | reflexivity
    | vm_compute; reflexivity
    | reflexivity ].
  Unshelve. vm_compute; reflexivity.
Defined.

Lemma find_uri_for_snapshot_witness :
  find_uri_for_artifact render_keyword example_b64 (fun _ => None)
    (fun _ => inl (HTTPError 404)) (MavenDownloader_init "http://repo" None None)
    (mkArtifact "g" "a" (Some "1.0-SNAPSHOT") None (Some "jar"))
    (mkWorld example_files [])
  = (Raise (DownloaderError "http://repo/g/a/1.0-SNAPSHOT/maven-metadata.xml"
              "Failed to download maven-metadata.xml" (HTTPError 404)),
     mkWorld example_files
       [mkRequest "http://repo/g/a/1.0-SNAPSHOT/maven-metadata.xml"
          [("User-Agent", "Ansible")]]).
Proof.
  etrans; [|shelve].
  apply (find_uri_for_snapshot render_keyword example_b64 (fun _ => None)
           (fun _ => inl (HTTPError 404)) (MavenDownloader_init "http://repo" None None)
           (mkArtifact "g" "a" (Some "1.0-SNAPSHOT") None (Some "jar"))
           (mkWorld example_files []) "1.0-SNAPSHOT"); vm_compute; reflexivity.
  Unshelve. vm_compute; reflexivity.
Defined.

Lemma download_check_mode_transfer_witness :
  download render_keyword example_b64 example_md5 (fun _ => None)
    (example_repo (Some "new")) example_downloader example_artifact
    "/tmp" true (mkWorld example_files [])
  = (Ok (mkInfo true example_url "/tmp/maven.jar" "org.apache.maven:maven:3.2.1"
           example_artifact),
     mkWorld (<["/tmp/maven.jar" := File EmptyString]> example_files)
       [mkRequest (example_url +:+ ".md5") [("User-Agent", "Ansible")];
        mkRequest example_url [("User-Agent", "Ansible")]]).
Proof.
  etrans; [|shelve].
  apply (download_check_mode_transfer render_keyword example_b64 example_md5
           (fun _ => None) (example_repo (Some "new")) example_downloader
           example_artifact "/tmp" (mkWorld example_files [])
           "/tmp/maven.jar" example_artifact example_url "org.apache.maven:maven:3.2.1"
           (mkWorld example_files [])
           (mkWorld example_files
              [request_for example_b64 example_downloader (example_url +:+ ".md5")])
           (mkResponse (Some "new")) "new"); vm_compute; reflexivity.
  Unshelve. vm_compute; reflexivity.
Defined.

Lemma download_twice_witness :
  let w1 := (download render_keyword example_b64 example_md5 (fun _ => None)
               (example_repo (Some "new")) example_downloader example_artifact
               "/tmp" false (mkWorld example_files [])).2 in
  exists w2,
    download render_keyword example_b64 example_md5 (fun _ => None)
      (example_repo (Some "new")) example_downloader example_artifact
      "/tmp" false w1
    = (Ok (mkInfo false example_url "/tmp/maven.jar" "org.apache.maven:maven:3.2.1"
             example_artifact), w2) /\
    files w2 = files w1.
Proof.
  cbv zeta.
  apply (download_twice render_keyword example_b64 example_md5 (fun _ => None)
           (example_repo (Some "new")) example_downloader example_artifact
           "/tmp" (mkWorld example_files [])
           (mkInfo true example_url "/tmp/maven.jar" "org.apache.maven:maven:3.2.1"
              example_artifact)).
  - vm_compute. reflexivity.
  - intros response data Hopen Hread.
    vm_compute in Hopen. injection Hopen as <-.
    vm_compute in Hread. injection Hread as <-.
    exists (mkResponse (Some (example_md5 "new"))). split; vm_compute; reflexivity.
Defined.
